(** * Pathfinder career counsellor (openai.py): model and properties

    A shallow embedding of the Streamlit script [openai.py]: the two
    resume extractors, the job search call, the resume-upload handling
    and the chat submission handler, with the session state passed
    explicitly and the external services (language model, job listings
    endpoint, document parsers, Streamlit widgets) as inputs. *)

From Stdlib Require Import List NArith Bool Ascii String Lia Arith.
Import ListNotations.

Set Implicit Arguments.
Set Warnings "-register-all".

(** ** Python strings

    A Python [str] is a sequence of Unicode code points. *)

Module PyStr.

Definition pystr := list N.

(** An ASCII literal of the source, as code points. *)
Definition lit (s : string) : pystr :=
  List.map N_of_ascii (list_ascii_of_string s).

Definition pystr_eqb (a b : pystr) : bool :=
  if list_eq_dec N.eq_dec a b then true else false.

(** [sep.join(parts)] *)
Fixpoint join (sep : pystr) (parts : list pystr) : pystr :=
  match parts with
  | [] => []
  | [p] => p
  | p :: rest => p ++ sep ++ join sep rest
  end.

(** The code points for which [str.isspace] holds; [str.strip] with
    no argument removes exactly these from both ends. *)
Definition isspace (c : N) : bool :=
  ((9 <=? c) && (c <=? 13) || (28 <=? c) && (c <=? 32)
   || (c =? 133) || (c =? 160) || (c =? 5760)
   || (8192 <=? c) && (c <=? 8202)
   || (c =? 8232) || (c =? 8233) || (c =? 8239) || (c =? 8287)
   || (c =? 12288))%N.

Fixpoint lstrip (s : pystr) : pystr :=
  match s with
  | [] => []
  | c :: rest => if isspace c then lstrip rest else s
  end.

Definition rstrip (s : pystr) : pystr := rev (lstrip (rev s)).

Definition strip (s : pystr) : pystr := rstrip (lstrip s).

(** Truth value of a string: non-empty. *)
Definition truthy (s : pystr) : bool :=
  match s with [] => false | _ => true end.

Fixpoint startswith (s prefix : pystr) : bool :=
  match prefix, s with
  | [], _ => true
  | p :: prefix', c :: s' => (p =? c)%N && startswith s' prefix'
  | _ :: _, [] => false
  end.

(** [sub in s] on strings: substring test. *)
Fixpoint contains (s sub : pystr) : bool :=
  startswith s sub ||
  match s with
  | [] => false
  | _ :: s' => contains s' sub
  end.

(** [s] has [sub] as a contiguous part. *)
Definition substring (sub s : pystr) : Prop :=
  exists pre post, s = pre ++ sub ++ post.

Definition is_ascii (c : N) : bool := (c <? 128)%N.

Definition ascii_lower (c : N) : N :=
  if ((65 <=? c) && (c <=? 90))%N then (c + 32)%N else c.

Definition ascii_upper (c : N) : N :=
  if ((97 <=? c) && (c <=? 122))%N then (c - 32)%N else c.

Section Unicode.
(** [str.lower] and [str.capitalize] of the interpreter on strings
    with code points outside ASCII (the Unicode case mapping is not
    character-wise there). *)
Variable unicode_lower : pystr -> pystr.
Variable unicode_capitalize : pystr -> pystr.

Definition lower (s : pystr) : pystr :=
  if forallb is_ascii s then List.map ascii_lower s else unicode_lower s.

Definition capitalize (s : pystr) : pystr :=
  if forallb is_ascii s then
    match s with
    | [] => []
    | c :: rest => ascii_upper c :: List.map ascii_lower rest
    end
  else unicode_capitalize s.
End Unicode.

End PyStr.
Import PyStr.

(** ** Intent routing (lines 156-159) *)

Definition job_keywords : list pystr :=
  [lit "job"; lit "jobs"; lit "openings"; lit "opportunity"; lit "vacancy"].

Definition search_keywords : list pystr :=
  [lit "find"; lit "search"; lit "looking"; lit "get"; lit "apply"].

Inductive IntentDecision := JOB_SEARCH | GENERAL_QUERY.

Section Routing.
Variable unicode_lower : pystr -> pystr.

(** The condition of the [if] on line 159. *)
Definition is_job_search (user_input : pystr) : bool :=
  existsb (fun jk => contains (lower unicode_lower user_input) jk) job_keywords
  && existsb (fun sk => contains (lower unicode_lower user_input) sk) search_keywords.

Definition classify (user_input : pystr) : IntentDecision :=
  if is_job_search user_input then JOB_SEARCH else GENERAL_QUERY.
End Routing.


(** ** Exceptions and results

    A Python computation either returns a value or raises; of an
    exception the script only ever uses [str(e)]. *)

Record Exception := { exc_class : pystr; exc_str : pystr }.

Inductive result (A : Type) :=
| Ok (a : A)
| Raise (e : Exception).
Arguments Ok {A} a.
Arguments Raise {A} e.

Definition rbind {A B} (r : result A) (k : A -> result B) : result B :=
  match r with
  | Ok a => k a
  | Raise e => Raise e
  end.

(** [try: body / except Exception as e: handler e] *)
Definition rtry {A} (body : result A) (handler : Exception -> result A) : result A :=
  match body with
  | Ok a => Ok a
  | Raise e => handler e
  end.

Fixpoint rmap {A B} (f : A -> result B) (l : list A) : result (list B) :=
  match l with
  | [] => Ok []
  | x :: rest =>
      rbind (f x) (fun y => rbind (rmap f rest) (fun ys => Ok (y :: ys)))
  end.

(** ** Literals of the script *)

Definition nl : pystr := [10%N].
Definition cross_mark : pystr := [10060%N].        (* U+274C *)
Definition magnifier : pystr := [128269%N].        (* U+1F50D *)
Definition warning_sign : pystr := [9888%N].       (* U+26A0 *)
Definition round_pushpin : pystr := [128205%N].    (* U+1F4CD *)
Definition link_symbol : pystr := [128279%N].      (* U+1F517 *)
Definition check_mark : pystr := [9989%N].         (* U+2705 *)
Definition page_facing_up : pystr := [128196%N].   (* U+1F4C4 *)
Definition test_tube : pystr := [129514%N].        (* U+1F9EA *)

Definition DOMAIN_PROMPT : pystr :=
  lit "You are a helpful and knowledgeable career/job/college counselling specialist. "
  ++ lit "Only respond to career/job/college questions. If a question is outside this domain, politely refuse to answer.".

Definition NO_TEXT_DOCX : pystr := cross_mark ++ lit " No text found in DOCX.".
Definition ERROR_DOCX (e : Exception) : pystr :=
  cross_mark ++ lit " Error reading DOCX: " ++ exc_str e.
Definition NO_TEXT_PDF : pystr :=
  cross_mark ++ lit " No text found in PDF (might be scanned image).".
Definition ERROR_PDF (e : Exception) : pystr :=
  cross_mark ++ lit " Error reading PDF: " ++ exc_str e.
Definition NO_JOBS : pystr := magnifier ++ lit " No jobs found for this query.".
Definition JOBS_HEADER : pystr := lit "Here are some job openings:" ++ nl ++ nl.
Definition FAILED_JOBS (e : Exception) : pystr :=
  warning_sign ++ lit " Failed to fetch jobs: " ++ exc_str e.
Definition CHAT_ERROR (e : Exception) : pystr :=
  warning_sign ++ lit " Error: " ++ exc_str e.
Definition GEMINI_ERROR (e : Exception) : pystr :=
  lit "Gemini error: " ++ exc_str e.
Definition UNSUPPORTED_TYPE : pystr := cross_mark ++ lit " Unsupported file type.".
Definition FAILED_EXTRACT : pystr :=
  cross_mark ++ lit " Failed to extract usable text from resume.".

Definition MIME_PDF : pystr := lit "application/pdf".
Definition MIME_DOCX : pystr :=
  lit "application/vnd.openxmlformats-officedocument.wordprocessingml.document".

(** ** Uploaded documents

    An upload is known to the script by its name, its declared media
    type and what each parser makes of its bytes: python-docx yields
    the paragraph texts or raises; pdfplumber opens the file or raises,
    and [extract_text] of a page returns a string, [None], or raises. *)

Record UploadedFile := {
  file_name : pystr;
  file_type : pystr;
  docx_paragraphs : result (list pystr);
  pdf_pages : result (list (result (option pystr)))
}.

(** ** Resume extractors (lines 39-63) *)

Definition extract_text_from_docx (file : UploadedFile) : result pystr :=
  rtry
    (rbind (docx_paragraphs file) (fun paragraphs =>
     let text := join nl (filter (fun para => truthy (strip para)) paragraphs) in
     if negb (truthy (strip text)) then Ok NO_TEXT_DOCX
     else Ok text))
    (fun e => Ok (ERROR_DOCX e)).

(** The [for page in pdf.pages] loop, accumulating [all_text]. *)
Fixpoint pdf_pages_loop (pages : list (result (option pystr))) (all_text : pystr)
  : result pystr :=
  match pages with
  | [] => Ok all_text
  | page :: rest =>
      rbind page (fun text =>
      match text with
      | Some t =>
          if truthy t then pdf_pages_loop rest (all_text ++ t ++ nl)
          else pdf_pages_loop rest all_text
      | None => pdf_pages_loop rest all_text
      end)
  end.

Definition extract_text_from_pdf (file : UploadedFile) : result pystr :=
  rtry
    (rbind (pdf_pages file) (fun pages =>
     rbind (pdf_pages_loop pages []) (fun all_text =>
     if negb (truthy (strip all_text)) then Ok NO_TEXT_PDF
     else Ok all_text)))
    (fun e => Ok (ERROR_PDF e)).

(** ** JSON values, as [response.json()] returns them *)

Inductive json :=
| JNull
| JBool (b : bool)
| JNum (nonzero : bool) (repr : pystr)
| JStr (s : pystr)
| JArr (items : list json)
| JObj (fields : list (pystr * json)).

Fixpoint dict_get (fields : list (pystr * json)) (key : pystr) : option json :=
  match fields with
  | [] => None
  | (k, v) :: rest => if pystr_eqb k key then Some v else dict_get rest key
  end.

Definition json_truthy (v : json) : bool :=
  match v with
  | JNull => false
  | JBool b => b
  | JNum nonzero _ => nonzero
  | JStr s => truthy s
  | JArr items => match items with [] => false | _ => true end
  | JObj fields => match fields with [] => false | _ => true end
  end.

(** ** The environment of a run

    What the script does not define itself: the external services, the
    configuration and the interpreter's own texts. *)

Record Env := {
  (** [model.generate_content(prompt).text] *)
  generate_content : pystr -> result pystr;
  (** [requests.get(url, headers, params).json()], by url, query and location *)
  requests_get_json : pystr -> pystr -> pystr -> result json;
  (** [RAPIDAPI_HOST] as the f-string on line 67 prints it *)
  RAPIDAPI_HOST : pystr;
  (** the keyword parameters that [st.chat_message] of the installed
      Streamlit declares *)
  chat_message_keywords : list pystr;
  unicode_lower : pystr -> pystr;
  unicode_capitalize : pystr -> pystr;
  (** [str(v)] of a list or dict *)
  json_repr : json -> pystr;
  (** the exception of an operation the value's type does not support
      (subscript, slice, attribute [get]) *)
  unsupported : json -> Exception
}.

(** ** Session state and the script monad

    [st.session_state] holds the conversation and the last extracted
    resume text (lines 33-36).  A run of the script threads it, records
    what it does to the outside (service calls, widgets) and to the
    history, and may stop with an exception; the state reached is kept
    in that case too. *)

Record Turn := { role : pystr; content : pystr }.

Record SessionState := { messages : list Turn; resume_text : pystr }.

Definition initial_state : SessionState := {| messages := []; resume_text := [] |}.

Inductive event :=
| GenerateContent (prompt : pystr)
| RequestsGet (url query location : pystr)
| ChatMarkdown (name text : pystr)
| StWrite (label value : pystr)
| StCode (text : pystr)
| StTextArea (label text : pystr)
| StError (text : pystr)
| MessagesAppend (turn : Turn).

Record World := { session : SessionState; trace : list event }.

Definition M (A : Type) := World -> result A * World.

Definition ret {A} (a : A) : M A := fun w => (Ok a, w).

Definition bind {A B} (m : M A) (k : A -> M B) : M B :=
  fun w =>
    match m w with
    | (Ok a, w') => k a w'
    | (Raise e, w') => (Raise e, w')
    end.

Notation "x <- m ;; k" := (bind m (fun x => k))
  (at level 61, m at next level, right associativity).
Notation "m ;; k" := (bind m (fun _ => k))
  (at level 61, right associativity).

Definition lift {A} (r : result A) : M A := fun w => (r, w).

Definition try_except {A} (body : M A) (handler : Exception -> M A) : M A :=
  fun w =>
    match body w with
    | (Ok a, w') => (Ok a, w')
    | (Raise e, w') => handler e w'
    end.

Definition emit (ev : event) : M unit :=
  fun w => (Ok tt, {| session := session w; trace := trace w ++ [ev] |}).

Definition get_messages : M (list Turn) := fun w => (Ok (messages (session w)), w).

Definition get_resume_text : M pystr := fun w => (Ok (resume_text (session w)), w).

Definition set_resume_text (text : pystr) : M unit :=
  fun w => (Ok tt, {| session := {| messages := messages (session w);
                                    resume_text := text |};
                      trace := trace w |}).

(** [st.session_state.messages.append(turn)] *)
Definition messages_append (turn : Turn) : M unit :=
  fun w => (Ok tt, {| session := {| messages := messages (session w) ++ [turn];
                                    resume_text := resume_text (session w) |};
                      trace := trace w ++ [MessagesAppend turn] |}).

Fixpoint for_each {A} (l : list A) (body : A -> M unit) : M unit :=
  match l with
  | [] => ret tt
  | x :: rest => body x ;; for_each rest body
  end.

(** ** Job search (lines 66-84) *)

Definition KeyError (key : pystr) : Exception :=
  {| exc_class := lit "KeyError"; exc_str := lit "'" ++ key ++ lit "'" |}.

Section JobSearch.
Variable env : Env.

(** [response.json().get("data", [])] *)
Definition get_data (body : json) : result json :=
  match body with
  | JObj fields =>
      match dict_get fields (lit "data") with
      | Some v => Ok v
      | None => Ok (JArr [])
      end
  | _ => Raise (unsupported env body)
  end.

(** The elements the comprehension iterates over: [jobs[:5]]. *)
Definition first_five (jobs : json) : result (list json) :=
  match jobs with
  | JArr items => Ok (firstn 5 items)
  | JStr s => Ok (List.map (fun c => JStr [c]) (firstn 5 s))
  | _ => Raise (unsupported env jobs)
  end.

(** [job[key]] *)
Definition subscript (job : json) (key : pystr) : result json :=
  match job with
  | JObj fields =>
      match dict_get fields key with
      | Some v => Ok v
      | None => Raise (KeyError key)
      end
  | _ => Raise (unsupported env job)
  end.

(** A value inside an f-string. *)
Definition fmt (v : json) : pystr :=
  match v with
  | JStr s => s
  | JNull => lit "None"
  | JBool true => lit "True"
  | JBool false => lit "False"
  | JNum _ repr => repr
  | _ => json_repr env v
  end.

Definition format_job (job : json) : result pystr :=
  rbind (subscript job (lit "job_title")) (fun title =>
  rbind (subscript job (lit "employer_name")) (fun employer =>
  rbind (subscript job (lit "job_city")) (fun city =>
  rbind (subscript job (lit "job_country")) (fun country =>
  rbind (subscript job (lit "job_apply_link")) (fun link =>
  Ok (lit "**" ++ fmt title ++ lit "** at " ++ fmt employer ++ nl
      ++ round_pushpin ++ lit " " ++ fmt city ++ lit ", " ++ fmt country ++ nl
      ++ link_symbol ++ lit " [Apply Here](" ++ fmt link ++ lit ")")))))).

(** The body of the [try] once the response has arrived. *)
Definition jobs_reply (body : json) : result pystr :=
  rbind (get_data body) (fun jobs =>
  if negb (json_truthy jobs) then Ok NO_JOBS
  else
    rbind (first_five jobs) (fun shown =>
    rbind (rmap format_job shown) (fun entries =>
    Ok (JOBS_HEADER ++ join (nl ++ nl) entries)))).

Definition search_url : pystr :=
  lit "https://" ++ RAPIDAPI_HOST env ++ lit "/search".

Definition requests_get (url query location : pystr) : M json :=
  emit (RequestsGet url query location) ;;
  lift (requests_get_json env url query location).

Definition search_jobs_at (query location : pystr) : M pystr :=
  try_except
    (body <- requests_get search_url query location ;;
     lift (jobs_reply body))
    (fun e => ret (FAILED_JOBS e)).

(** [location] defaults to "India". *)
Definition search_jobs (query : pystr) : M pystr :=
  search_jobs_at query (lit "India").
End JobSearch.

(** ** Streamlit calls *)

Definition TypeError_keyword (kw : pystr) : Exception :=
  {| exc_class := lit "TypeError";
     exc_str := lit "ChatMixin.chat_message() got an unexpected keyword argument '"
                ++ kw ++ lit "'" |}.

Section Script.
Variable env : Env.

(** Binding of the keyword arguments of a call of [st.chat_message]:
    the first one the function does not declare raises. *)
Fixpoint bind_keywords (kwargs : list (pystr * pystr)) : result unit :=
  match kwargs with
  | [] => Ok tt
  | (kw, _) :: rest =>
      if existsb (pystr_eqb kw) (chat_message_keywords env)
      then bind_keywords rest
      else Raise (TypeError_keyword kw)
  end.

(** [st.chat_message(name, **kwargs).markdown(text)] *)
Definition chat_message_markdown (name : pystr) (kwargs : list (pystr * pystr))
           (text : pystr) : M unit :=
  lift (bind_keywords kwargs) ;;
  emit (ChatMarkdown name text).

Definition model_generate (prompt : pystr) : M pystr :=
  emit (GenerateContent prompt) ;;
  lift (generate_content env prompt).

(** *** Show chat history (lines 87-89) *)
Definition show_chat_history : M unit :=
  msgs <- get_messages ;;
  for_each msgs (fun msg => chat_message_markdown (role msg) [] (content msg)).

(** *** Resume upload handling (lines 107-143) *)

Definition analysis_prompt (resume : pystr) : pystr :=
  nl ++ lit "You are a professional career counsellor. Analyze the following resume and provide:" ++ nl
  ++ lit "1. Summary of candidate profile" ++ nl
  ++ lit "2. Strengths and skills" ++ nl
  ++ lit "3. Suggested job roles or industries" ++ nl
  ++ lit "4. Areas of improvement" ++ nl
  ++ nl
  ++ lit "Resume Content:" ++ nl
  ++ resume ++ nl.

(** The guard on line 121. *)
Definition usable (text : pystr) : bool :=
  truthy text && negb (contains text cross_mark).

(** Lines 108-116: the extractor is chosen by the declared media
    type and its result stored in the session. *)
Definition extract_resume (file : UploadedFile) : M unit :=
  emit (StWrite (check_mark ++ lit " File uploaded:") (file_name file)) ;;
  emit (StWrite (page_facing_up ++ lit " File type:") (file_type file)) ;;
  if pystr_eqb (file_type file) MIME_PDF then
    text <- lift (extract_text_from_pdf file) ;; set_resume_text text
  else if pystr_eqb (file_type file) MIME_DOCX then
    text <- lift (extract_text_from_docx file) ;; set_resume_text text
  else emit (StError UNSUPPORTED_TYPE).

(** Lines 118-143: the stored text is shown and, when usable,
    analysed by the language model. *)
Definition analyse_resume : M unit :=
  text <- get_resume_text ;;
  emit (StWrite (test_tube ++ lit " Extracted resume text (first 500 characters):") []) ;;
  emit (StCode (firstn 500 text)) ;;
  if usable text then
    emit (StTextArea (lit "Resume Content") text) ;;
    try_except
      (res <- model_generate (analysis_prompt text) ;;
       chat_message_markdown (lit "assistant") [] res ;;
       messages_append {| role := lit "assistant"; content := res |})
      (fun e => emit (StError (GEMINI_ERROR e)))
  else emit (StError FAILED_EXTRACT).

Definition resume_upload_handling (uploaded_file : option UploadedFile) : M unit :=
  match uploaded_file with
  | None => ret tt
  | Some file => extract_resume file ;; analyse_resume
  end.

(** *** Chat submission (lines 146-169) *)

(** [user_text or mic_text]: the microphone gives a transcript or [None]. *)
Definition resolve_input (user_text : pystr) (mic_text : option pystr) : option pystr :=
  if truthy user_text then Some user_text else mic_text.

(** [chat_history] of line 151, from the messages at that point. *)
Definition chat_history (msgs : list Turn) : pystr :=
  join nl (List.map (fun msg => capitalize (unicode_capitalize env) (role msg)
                                ++ lit ": " ++ content msg) msgs).

Definition full_prompt (msgs : list Turn) (user_input : pystr) : pystr :=
  DOMAIN_PROMPT ++ nl ++ nl ++ chat_history msgs ++ nl ++ lit "User: " ++ user_input.

Definition handle_chat_submission (user_text : pystr) (mic_text : option pystr)
           (submitted : bool) : M unit :=
  match resolve_input user_text mic_text with
  | Some user_input =>
      if submitted && truthy user_input then
        chat_message_markdown (lit "user") [] user_input ;;
        messages_append {| role := lit "user"; content := user_input |} ;;
        msgs <- get_messages ;;
        bot_reply <-
          (if is_job_search (unicode_lower env) user_input then
             search_jobs env user_input
           else
             try_except
               (model_generate (full_prompt msgs user_input))
               (fun e => ret (CHAT_ERROR e))) ;;
        chat_message_markdown (lit "assistant") [(lit "Avatar", lit "OIP.webp")] bot_reply ;;
        messages_append {| role := lit "assistant"; content := bot_reply |}
      else ret tt
  | None => ret tt
  end.

(** *** One run of the script *)

Record Submission := {
  user_text : pystr;
  mic_text : option pystr;
  uploaded_file : option UploadedFile;
  submitted : bool
}.

Definition run_script (sub : Submission) : M unit :=
  show_chat_history ;;
  resume_upload_handling (uploaded_file sub) ;;
  handle_chat_submission (user_text sub) (mic_text sub) (submitted sub).
End Script.

(** ** Reading a run *)

(** A run from a session state, with an empty record of what was done. *)
Definition start (s : SessionState) : World := {| session := s; trace := [] |}.

(** Streamlit's [chat_message(name, *, avatar=None)]. *)
Definition streamlit_chat_message_keywords : list pystr := [lit "avatar"].


(** The prompts sent to the language model, in order. *)
Fixpoint lm_calls (tr : list event) : list pystr :=
  match tr with
  | [] => []
  | GenerateContent prompt :: rest => prompt :: lm_calls rest
  | _ :: rest => lm_calls rest
  end.

(** The turns appended to the history, in order. *)
Fixpoint appended (tr : list event) : list Turn :=
  match tr with
  | [] => []
  | MessagesAppend turn :: rest => turn :: appended rest
  | _ :: rest => appended rest
  end.

(** The errors shown with [st.error], in order. *)
Fixpoint errors_shown (tr : list event) : list pystr :=
  match tr with
  | [] => []
  | StError text :: rest => text :: errors_shown rest
  | _ :: rest => errors_shown rest
  end.

(** A string of white space only (the empty one included). *)
Definition blank (s : pystr) : bool := forallb isspace s.

(** The extractor the upload handling selects by the declared media
    type (lines 111-116), if any. *)
Definition extracted (file : UploadedFile) : option (result pystr) :=
  if pystr_eqb (file_type file) MIME_PDF then Some (extract_text_from_pdf file)
  else if pystr_eqb (file_type file) MIME_DOCX then Some (extract_text_from_docx file)
  else None.

(** What the pages of a PDF contribute to [all_text]: the text and a
    newline for a page with text, nothing for a page without. *)
Definition page_contribution (text : option pystr) : pystr :=
  match text with
  | Some (c :: t) => (c :: t) ++ nl
  | _ => []
  end.

(** A posting of the listings service, by the five fields the reply
    prints. *)
Record JobPosting := {
  job_title : json;
  employer_name : json;
  job_city : json;
  job_country : json;
  job_apply_link : json
}.

Definition is_posting (p : JobPosting) (job : json) : Prop :=
  match job with
  | JObj fields =>
      dict_get fields (lit "job_title") = Some (job_title p) /\
      dict_get fields (lit "employer_name") = Some (employer_name p) /\
      dict_get fields (lit "job_city") = Some (job_city p) /\
      dict_get fields (lit "job_country") = Some (job_country p) /\
      dict_get fields (lit "job_apply_link") = Some (job_apply_link p)
  | _ => False
  end.

Definition format_posting (env : Env) (p : JobPosting) : pystr :=
  lit "**" ++ fmt env (job_title p) ++ lit "** at " ++ fmt env (employer_name p) ++ nl
  ++ round_pushpin ++ lit " " ++ fmt env (job_city p) ++ lit ", "
  ++ fmt env (job_country p) ++ nl
  ++ link_symbol ++ lit " [Apply Here](" ++ fmt env (job_apply_link p) ++ lit ")".

(** What lines 118-119 show of the stored text. *)
Definition shown_text (text : pystr) : list event :=
  [StWrite (test_tube ++ lit " Extracted resume text (first 500 characters):") [];
   StCode (firstn 500 text)].

(** The reply of a chat submission and the one service call that
    produces it, by the route taken on line 159. *)
Definition bot_reply (env : Env) (msgs : list Turn) (user_input : pystr) : pystr :=
  if is_job_search (unicode_lower env) user_input then
    match rbind (requests_get_json env (search_url env) user_input (lit "India"))
                (jobs_reply env) with
    | Ok reply => reply
    | Raise e => FAILED_JOBS e
    end
  else
    match generate_content env (full_prompt env msgs user_input) with
    | Ok reply => reply
    | Raise e => CHAT_ERROR e
    end.

Definition service_call (env : Env) (msgs : list Turn) (user_input : pystr) : event :=
  if is_job_search (unicode_lower env) user_input then
    RequestsGet (search_url env) user_input (lit "India")
  else GenerateContent (full_prompt env msgs user_input).

Definition user_turn (user_input : pystr) : Turn :=
  {| role := lit "user"; content := user_input |}.

Definition assistant_turn (reply : pystr) : Turn :=
  {| role := lit "assistant"; content := reply |}.

(** How often [sub] occurs in [s]. *)
Fixpoint occurrences (s sub : pystr) : nat :=
  (if startswith s sub then 1 else 0) +
  match s with
  | [] => 0
  | _ :: s' => occurrences s' sub
  end.

(** The messages an extractor returns instead of the text. *)
Definition failure_message (text : pystr) : Prop :=
  text = NO_TEXT_DOCX \/ text = NO_TEXT_PDF
  \/ (exists e, text = ERROR_DOCX e) \/ (exists e, text = ERROR_PDF e).

(** Two worlds that differ at most in the stored resume text. *)
Definition agree (w1 w2 : World) : Prop :=
  messages (session w1) = messages (session w2) /\ trace w1 = trace w2.

(** A computation that neither reads nor writes the stored resume
    text: from worlds that agree it returns the same, leaves worlds
    that agree, and the stored text is as before. *)
Definition resume_blind {A} (m : M A) : Prop :=
  forall w1 w2, agree w1 w2 ->
    fst (m w1) = fst (m w2)
    /\ agree (snd (m w1)) (snd (m w2))
    /\ resume_text (session (snd (m w1))) = resume_text (session w1).

(** The requests sent to the listings endpoint, in order: url, query
    and location. *)
Fixpoint http_calls (tr : list event) : list (pystr * pystr * pystr) :=
  match tr with
  | [] => []
  | RequestsGet url query location :: rest => (url, query, location) :: http_calls rest
  | _ :: rest => http_calls rest
  end.

(** A computation that only adds to the record of the run and changes
    the history only by the appends it records. *)
Definition history_tracked {A} (m : M A) : Prop :=
  forall w, exists tr,
    trace (snd (m w)) = trace w ++ tr
    /\ messages (session (snd (m w))) = messages (session w) ++ appended tr.

(** ** Environments and inputs of the examples *)

Definition TypeError (msg : pystr) : Exception :=
  {| exc_class := lit "TypeError"; exc_str := msg |}.

Definition ConnectionError : Exception :=
  {| exc_class := lit "ConnectionError"; exc_str := lit "connection refused" |}.

(** An environment with a fixed language model and a fixed answer of
    the listings endpoint. *)
Definition fixed_env (lm : pystr -> result pystr) (http : result json)
           (keywords : list pystr) : Env :=
  {| generate_content := lm;
     requests_get_json := fun _ _ _ => http;
     RAPIDAPI_HOST := lit "jsearch.p.rapidapi.com";
     chat_message_keywords := keywords;
     unicode_lower := fun s => s;
     unicode_capitalize := fun s => s;
     json_repr := fun _ => lit "[...]";
     unsupported := fun _ => TypeError (lit "unsupported operand") |}.

(** The same environment with Streamlit's signature of
    [chat_message]. *)
Definition with_streamlit (env : Env) : Env :=
  {| generate_content := generate_content env;
     requests_get_json := requests_get_json env;
     RAPIDAPI_HOST := RAPIDAPI_HOST env;
     chat_message_keywords := streamlit_chat_message_keywords;
     unicode_lower := unicode_lower env;
     unicode_capitalize := unicode_capitalize env;
     json_repr := json_repr env;
     unsupported := unsupported env |}.

Definition posting_json (title employer city country link : pystr) : json :=
  JObj [(lit "job_id", JStr (lit "x1"));
        (lit "job_title", JStr title);
        (lit "employer_name", JStr employer);
        (lit "job_city", JStr city);
        (lit "job_country", JStr country);
        (lit "job_apply_link", JStr link)].

Definition posting_of (title employer city country link : pystr) : JobPosting :=
  {| job_title := JStr title; employer_name := JStr employer; job_city := JStr city;
     job_country := JStr country; job_apply_link := JStr link |}.

Definition pdf_upload (name : pystr) (pages : list pystr) : UploadedFile :=
  {| file_name := name; file_type := MIME_PDF;
     docx_paragraphs := Raise (TypeError (lit "not a zip file"));
     pdf_pages := Ok (List.map (fun t => Ok (Some t)) pages) |}.

Definition docx_upload (name : pystr) (paragraphs : list pystr) : UploadedFile :=
  {| file_name := name; file_type := MIME_DOCX;
     docx_paragraphs := Ok paragraphs;
     pdf_pages := Raise (TypeError (lit "no /Root object")) |}.

(** The browser declares another media type for the same bytes. *)
Definition declared_as (type : pystr) (file : UploadedFile) : UploadedFile :=
  {| file_name := file_name file; file_type := type;
     docx_paragraphs := docx_paragraphs file; pdf_pages := pdf_pages file |}.

Arguments lit : simpl never.
Arguments analysis_prompt : simpl never.
Arguments full_prompt : simpl never.
Arguments chat_history : simpl never.
Arguments firstn : simpl never.
Arguments bot_reply : simpl never.
Arguments service_call : simpl never.

(** ** Properties of strings *)

Lemma startswith_spec (s p : pystr) :
  startswith s p = true <-> exists post, s = p ++ post.
Proof.
  revert s; induction p as [|a p IH]; intros s.
  - split; [intros _; now exists s | intros _; now destruct s].
  - destruct s as [|c s]; simpl.
    + split; [discriminate | intros [post H]; discriminate].
    + rewrite andb_true_iff, N.eqb_eq, IH. split.
      * intros [-> [post ->]]. now exists post.
      * intros [post H]. injection H as -> ->. split; [reflexivity | now exists post].
Qed.

Lemma contains_spec (s sub : pystr) :
  contains s sub = true <-> substring sub s.
Proof.
  unfold substring. induction s as [|c s IH].
  - cbn [contains]. rewrite orb_false_r, startswith_spec. split.
    + intros [post H]. now exists [], post.
    + intros [pre [post H]]. destruct pre; simpl in H.
      * now exists post.
      * discriminate.
  - cbn [contains]. rewrite orb_true_iff, startswith_spec, IH. split.
    + intros [[post H] | [pre [post H]]].
      * now exists [], post.
      * exists (c :: pre), post. simpl. now rewrite H.
    + intros [pre [post H]]. destruct pre as [|a pre]; simpl in H.
      * left. now exists post.
      * right. injection H as _ H. now exists pre, post.
Qed.

(** A one-character needle is a membership test. *)
Lemma contains_char (s : pystr) (c : N) :
  contains s [c] = true <-> In c s.
Proof.
  rewrite contains_spec. unfold substring. split.
  - intros [pre [post ->]]. apply in_or_app. right. now left.
  - intros H. apply in_split in H. destruct H as [pre [post ->]]. now exists pre, post.
Qed.

Lemma lstrip_shape (s : pystr) :
  (lstrip s = [] /\ blank s = true) \/
  (exists c r, lstrip s = c :: r /\ isspace c = false /\ blank s = false).
Proof.
  unfold blank. induction s as [|a s IH]; simpl.
  - now left.
  - destruct (isspace a) eqn:Ea; simpl.
    + exact IH.
    + right. now exists a, s.
Qed.

Lemma blank_app (a b : pystr) : blank (a ++ b) = blank a && blank b.
Proof. apply forallb_app. Qed.

Lemma blank_rev (s : pystr) : blank (rev s) = blank s.
Proof.
  induction s as [|a s IH]; simpl; [reflexivity|].
  rewrite blank_app, IH. simpl. rewrite andb_true_r. apply andb_comm.
Qed.

Lemma strip_nil_iff (s : pystr) : strip s = [] <-> blank s = true.
Proof.
  unfold strip, rstrip.
  destruct (lstrip_shape s) as [[E B] | [c [r [E [Hc B]]]]]; rewrite E, B.
  - simpl. split; reflexivity.
  - split; [|discriminate]. intros H.
    apply (f_equal (@rev N)) in H. rewrite rev_involutive in H.
    destruct (lstrip_shape (rev (c :: r))) as [[_ B'] | [c' [r' [E' _]]]].
    + rewrite blank_rev in B'. unfold blank in B'. simpl in B'.
      rewrite Hc in B'. discriminate.
    + rewrite E' in H. discriminate.
Qed.

Lemma truthy_strip (s : pystr) : truthy (strip s) = negb (blank s).
Proof.
  destruct (blank s) eqn:B.
  - apply strip_nil_iff in B. now rewrite B.
  - destruct (strip s) eqn:E; [|reflexivity].
    apply strip_nil_iff in E. congruence.
Qed.

Lemma blank_false_iff (s : pystr) :
  blank s = false <-> exists c, In c s /\ isspace c = false.
Proof.
  unfold blank. split.
  - intros H. induction s as [|a s IH]; simpl in H; [discriminate|].
    destruct (isspace a) eqn:Ea.
    + destruct (IH H) as [c [Hc Hs]]. exists c. split; [now right | assumption].
    + exists a. split; [now left | assumption].
  - intros [c [Hc Hs]]. destruct (forallb isspace s) eqn:E; [|reflexivity].
    rewrite forallb_forall in E. rewrite (E c Hc) in Hs. discriminate.
Qed.

Lemma blank_join (sep : pystr) (parts : list pystr) (p : pystr) :
  In p parts -> blank p = false -> blank (join sep parts) = false.
Proof.
  induction parts as [|q parts IH]; intros Hin Hp; [contradiction|].
  destruct parts as [|q' parts].
  - destruct Hin as [-> | []]. exact Hp.
  - change (join sep (q :: q' :: parts)) with (q ++ sep ++ join sep (q' :: parts)).
    rewrite !blank_app. destruct Hin as [-> | Hin].
    + now rewrite Hp.
    + rewrite (IH Hin Hp). now rewrite !andb_false_r.
Qed.

(** ** Intent routing *)

(** C1. The routing condition holds exactly when the lower-cased
    utterance contains a word of the job vocabulary and a word of the
    action vocabulary; the decision is JOB_SEARCH then and
    GENERAL_QUERY otherwise.  "find me jobs" is routed to the job
    search, "what jobs exist" to the general query. *)
Theorem classify_job_search_iff (unicode_lower : pystr -> pystr) :
  (forall u,
     classify unicode_lower u = JOB_SEARCH <->
     (exists jk, In jk job_keywords /\ substring jk (lower unicode_lower u)) /\
     (exists sk, In sk search_keywords /\ substring sk (lower unicode_lower u)))
  /\ (forall u, classify unicode_lower u = JOB_SEARCH \/
                classify unicode_lower u = GENERAL_QUERY)
  /\ classify unicode_lower (lit "find me jobs") = JOB_SEARCH
  /\ classify unicode_lower (lit "what jobs exist") = GENERAL_QUERY.
Proof.
  split; [|split; [|split; reflexivity]].
  - intros u. unfold classify, is_job_search.
    set (l := lower unicode_lower u).
    destruct (existsb (fun jk => contains l jk) job_keywords) eqn:Ej;
      destruct (existsb (fun sk => contains l sk) search_keywords) eqn:Es; simpl.
    + split; [intros _ | reflexivity].
      apply existsb_exists in Ej, Es.
      destruct Ej as [jk [Hj Cj]], Es as [sk [Hs Cs]].
      split; [exists jk | exists sk]; split; try assumption; now apply contains_spec.
    + split; [discriminate |]. intros [_ [sk [Hs Cs]]].
      assert (existsb (fun sk => contains l sk) search_keywords = true) as E
        by (apply existsb_exists; exists sk; split; [assumption | now apply contains_spec]).
      congruence.
    + split; [discriminate |]. intros [[jk [Hj Cj]] _].
      assert (existsb (fun jk => contains l jk) job_keywords = true) as E
        by (apply existsb_exists; exists jk; split; [assumption | now apply contains_spec]).
      congruence.
    + split; [discriminate |]. intros [[jk [Hj Cj]] _].
      assert (existsb (fun jk => contains l jk) job_keywords = true) as E
        by (apply existsb_exists; exists jk; split; [assumption | now apply contains_spec]).
      congruence.
  - intros u. unfold classify. destruct (is_job_search unicode_lower u); auto.
Qed.

(** ** Resume extractors *)

Lemma rbind_ok {A B} (a : A) (k : A -> result B) : rbind (Ok a) k = k a.
Proof. reflexivity. Qed.

Lemma filter_nonblank_eq (paragraphs : list pystr) :
  filter (fun para => truthy (strip para)) paragraphs
  = filter (fun para => negb (blank para)) paragraphs.
Proof. apply filter_ext. intros para. apply truthy_strip. Qed.

Lemma extract_text_from_docx_parsed (file : UploadedFile) (paragraphs : list pystr) :
  docx_paragraphs file = Ok paragraphs ->
  extract_text_from_docx file =
  let text := join nl (filter (fun para => negb (blank para)) paragraphs) in
  Ok (if blank text then NO_TEXT_DOCX else text).
Proof.
  intros H. unfold extract_text_from_docx. rewrite H, rbind_ok.
  cbv zeta. rewrite filter_nonblank_eq, truthy_strip, negb_involutive.
  now destruct (blank _).
Qed.

Lemma extract_text_from_docx_all_blank (file : UploadedFile) (paragraphs : list pystr) :
  docx_paragraphs file = Ok paragraphs ->
  (forall para, In para paragraphs -> blank para = true) ->
  extract_text_from_docx file = Ok NO_TEXT_DOCX.
Proof.
  intros H Hall. rewrite (extract_text_from_docx_parsed file H). cbv zeta.
  assert (filter (fun para => negb (blank para)) paragraphs = []) as E.
  { clear H. induction paragraphs as [|p ps IH]; [reflexivity|]. simpl.
    rewrite (Hall p) by now left. simpl. apply IH. intros q Hq. apply Hall. now right. }
  rewrite E. reflexivity.
Qed.

(** C6, as stated, fails on a paragraph of white space: the document
    with the paragraphs " " and "a" has two non-empty paragraphs, and
    the extractor returns "a", not " \na". *)
Lemma docx_whitespace_paragraph_counterexample :
  let paragraphs := [lit " "; lit "a"] in
  let file := {| file_name := lit "cv.docx"; file_type := MIME_DOCX;
                 docx_paragraphs := Ok paragraphs; pdf_pages := Ok [] |} in
  (exists para, In para paragraphs /\ para <> []) /\
  extract_text_from_docx file = Ok (lit "a") /\
  extract_text_from_docx file <> Ok (join nl (filter truthy paragraphs)).
Proof.
  cbv zeta. split; [|split].
  - exists (lit "a"). split; [right; now left | discriminate].
  - reflexivity.
  - vm_compute. discriminate.
Qed.

(** C6, amended. For a parsed DOCX with a paragraph that is not white
    space only, the extractor returns the texts of the paragraphs that
    are not white space only, in document order, joined by one
    newline, and that text does not trim to empty; when every
    paragraph is white space only (or there is none) it returns the
    message "No text found in DOCX." behind the cross mark. *)
Theorem docx_extraction_nonblank_paragraphs (file : UploadedFile) (paragraphs : list pystr) :
  docx_paragraphs file = Ok paragraphs ->
  ((exists para, In para paragraphs /\ exists c, In c para /\ isspace c = false) ->
   extract_text_from_docx file
   = Ok (join nl (filter (fun para => negb (blank para)) paragraphs))
   /\ strip (join nl (filter (fun para => negb (blank para)) paragraphs)) <> [])
  /\ ((forall para, In para paragraphs -> forall c, In c para -> isspace c = true) ->
      extract_text_from_docx file = Ok NO_TEXT_DOCX).
Proof.
  intros H. split.
  - rewrite (extract_text_from_docx_parsed file H). cbv zeta.
    intros [para [Hin Hc]]. apply blank_false_iff in Hc.
    assert (blank (join nl (filter (fun para => negb (blank para)) paragraphs)) = false) as B.
    { apply blank_join with (p := para); [|assumption].
      apply filter_In. split; [assumption | now rewrite Hc]. }
    rewrite B. split; [reflexivity|].
    intros E. apply strip_nil_iff in E. congruence.
  - intros Hall. apply (extract_text_from_docx_all_blank file H).
    intros para Hin. apply forallb_forall. intros c Hc. now apply (Hall para).
Qed.

Lemma docx_extraction_nonblank_paragraphs_witness :
  extract_text_from_docx
    {| file_name := lit "cv.docx"; file_type := MIME_DOCX;
       docx_paragraphs := Ok [lit "Jane Doe"; lit "  "; []; lit "Data analyst"];
       pdf_pages := Ok [] |}
  = Ok (lit "Jane Doe" ++ nl ++ lit "Data analyst").
Proof.
  pose proof (@docx_extraction_nonblank_paragraphs
    {| file_name := lit "cv.docx"; file_type := MIME_DOCX;
       docx_paragraphs := Ok [lit "Jane Doe"; lit "  "; []; lit "Data analyst"];
       pdf_pages := Ok [] |}
    [lit "Jane Doe"; lit "  "; []; lit "Data analyst"] eq_refl) as [H _].
  destruct H as [H _].
  - exists (lit "Jane Doe"). split; [now left|].
    exists 74%N. split; [now left | reflexivity].
  - exact H.
Defined.

Lemma pdf_pages_loop_texts (texts : list (option pystr)) (all_text : pystr) :
  pdf_pages_loop (List.map Ok texts) all_text
  = Ok (all_text ++ List.concat (List.map page_contribution texts)).
Proof.
  revert all_text. induction texts as [|text texts IH]; intros all_text; simpl.
  - now rewrite app_nil_r.
  - destruct text as [[|c t]|]; simpl; rewrite IH; try reflexivity.
    now rewrite <- app_assoc.
Qed.

Lemma cross_mark_not_blank (rest : pystr) : blank (cross_mark ++ rest) = false.
Proof. reflexivity. Qed.

Lemma extract_text_from_pdf_not_blank (file : UploadedFile) (text : pystr) :
  extract_text_from_pdf file = Ok text -> blank text = false.
Proof.
  unfold extract_text_from_pdf. intros H.
  destruct (pdf_pages file) as [pages|e]; simpl in H.
  - destruct (pdf_pages_loop pages []) as [all_text|e]; simpl in H.
    + rewrite truthy_strip, negb_involutive in H.
      destruct (blank all_text) eqn:B; injection H as <-.
      * apply cross_mark_not_blank.
      * exact B.
    + injection H as <-. apply cross_mark_not_blank.
  - injection H as <-. apply cross_mark_not_blank.
Qed.

(** C7. For a PDF whose pages all yield a text or none, the extractor
    concatenates, in page order, the text of each page that has one
    followed by a newline, a page without text adding nothing; when
    that trims to empty it returns the message "No text found in PDF
    (might be scanned image)." behind the cross mark, and otherwise
    the concatenation.  No PDF at all gives a result that trims to
    empty. *)
Theorem pdf_extraction_pages (file : UploadedFile) :
  (forall texts : list (option pystr),
     pdf_pages file = Ok (List.map Ok texts) ->
     let all_text := List.concat (List.map page_contribution texts) in
     (strip all_text = [] -> extract_text_from_pdf file = Ok NO_TEXT_PDF) /\
     (strip all_text <> [] -> extract_text_from_pdf file = Ok all_text))
  /\ (forall text, extract_text_from_pdf file = Ok text -> strip text <> []).
Proof.
  split.
  - intros texts H all_text. unfold extract_text_from_pdf.
    rewrite H, rbind_ok, pdf_pages_loop_texts, rbind_ok.
    change ([] ++ List.concat (List.map page_contribution texts)) with all_text.
    destruct (strip all_text) eqn:E; simpl; split; intros H0;
      first [reflexivity | discriminate | now contradiction H0].
  - intros text H E. apply extract_text_from_pdf_not_blank in H.
    apply strip_nil_iff in E. congruence.
Qed.

Lemma pdf_extraction_pages_witness :
  extract_text_from_pdf
    {| file_name := lit "cv.pdf"; file_type := MIME_PDF; docx_paragraphs := Ok [];
       pdf_pages := Ok [Ok (Some (lit "Jane")); Ok None; Ok (Some []); Ok (Some (lit "Doe"))] |}
  = Ok (lit "Jane" ++ nl ++ lit "Doe" ++ nl).
Proof.
  pose proof (@pdf_extraction_pages
    {| file_name := lit "cv.pdf"; file_type := MIME_PDF; docx_paragraphs := Ok [];
       pdf_pages := Ok [Ok (Some (lit "Jane")); Ok None; Ok (Some []); Ok (Some (lit "Doe"))] |})
    as [H _].
  destruct (H [Some (lit "Jane"); None; Some []; Some (lit "Doe")] eq_refl) as [_ H2].
  apply H2. vm_compute. discriminate.
Defined.

(** The extractors return on every input. *)
Lemma extract_text_from_docx_total (file : UploadedFile) :
  exists text, extract_text_from_docx file = Ok text.
Proof.
  unfold extract_text_from_docx.
  destruct (docx_paragraphs file) as [paragraphs|e]; simpl.
  - destruct (negb (truthy (strip _))); simpl; eauto.
  - eauto.
Qed.

Lemma extract_text_from_pdf_total (file : UploadedFile) :
  exists text, extract_text_from_pdf file = Ok text.
Proof.
  unfold extract_text_from_pdf.
  destruct (pdf_pages file) as [pages|e]; simpl; [|eauto].
  destruct (pdf_pages_loop pages []) as [all_text|e]; simpl; [|eauto].
  destruct (negb (truthy (strip _))); simpl; eauto.
Qed.

Lemma pdf_pages_loop_raises (before : list (option pystr)) (e : Exception)
      (after : list (result (option pystr))) (all_text : pystr) :
  pdf_pages_loop (List.map Ok before ++ Raise e :: after) all_text = Raise e.
Proof.
  revert all_text. induction before as [|text before IH]; intros all_text; simpl.
  - reflexivity.
  - destruct text as [[|c t]|]; simpl; apply IH.
Qed.

(** ** Job search *)

(** One call of [search_jobs]: the request is sent once, and the reply
    is what the body of the [try] returns, or the failure message. *)
Lemma search_jobs_run (env : Env) (query : pystr) (w : World) :
  search_jobs env query w =
  (Ok match rbind (requests_get_json env (search_url env) query (lit "India"))
                  (jobs_reply env) with
      | Ok reply => reply
      | Raise e => FAILED_JOBS e
      end,
   {| session := session w;
      trace := trace w ++ [RequestsGet (search_url env) query (lit "India")] |}).
Proof.
  unfold search_jobs, search_jobs_at, try_except, bind, requests_get, emit, lift, ret.
  destruct (requests_get_json env (search_url env) query (lit "India")) as [body|e];
    simpl; [|reflexivity].
  destruct (jobs_reply env body); reflexivity.
Qed.

Lemma format_job_posting (env : Env) (p : JobPosting) (job : json) :
  is_posting p job -> format_job env job = Ok (format_posting env p).
Proof.
  destruct job; simpl; try contradiction.
  intros (H1 & H2 & H3 & H4 & H5).
  unfold format_job, subscript. now rewrite H1, H2, H3, H4, H5.
Qed.

Lemma rmap_format_job (env : Env) (postings : list JobPosting) (items : list json) :
  Forall2 is_posting postings items ->
  rmap (format_job env) items = Ok (List.map (format_posting env) postings).
Proof.
  induction 1 as [|p job postings items Hp _ IH]; simpl.
  - reflexivity.
  - now rewrite (@format_job_posting env _ _ Hp), IH.
Qed.

Lemma Forall2_firstn {A B} (P : A -> B -> Prop) (n : nat) (xs : list A) (ys : list B) :
  Forall2 P xs ys -> Forall2 P (firstn n xs) (firstn n ys).
Proof.
  intros H. revert n. induction H; intros [|n]; simpl; constructor; auto.
Qed.

(** C5. When the service answers with a list of postings, the reply
    is the heading followed by the first five of them (all of them
    when there are fewer), formatted in the order received; of seven
    postings exactly the first five are shown, in that order.  When
    the [data] field is missing or empty the reply is the fixed "No
    jobs found" message. *)
Theorem search_jobs_first_five (env : Env) (query : pystr) (w : World)
        (fields : list (pystr * json)) :
  requests_get_json env (search_url env) query (lit "India") = Ok (JObj fields) ->
  (forall postings items,
     dict_get fields (lit "data") = Some (JArr items) ->
     Forall2 is_posting postings items ->
     postings <> [] ->
     fst (search_jobs env query w)
     = Ok (JOBS_HEADER ++ join (nl ++ nl)
             (List.map (format_posting env) (firstn 5 postings)))
     /\ List.length (firstn 5 postings) = Nat.min 5 (List.length postings)
     /\ (forall p1 p2 p3 p4 p5 p6 p7,
           postings = [p1; p2; p3; p4; p5; p6; p7] ->
           fst (search_jobs env query w)
           = Ok (JOBS_HEADER ++ join (nl ++ nl)
                   [format_posting env p1; format_posting env p2; format_posting env p3;
                    format_posting env p4; format_posting env p5])))
  /\ (dict_get fields (lit "data") = None \/
      dict_get fields (lit "data") = Some (JArr []) ->
      fst (search_jobs env query w) = Ok NO_JOBS).
Proof.
  intros Hget. rewrite search_jobs_run, Hget, rbind_ok. cbn [fst].
  unfold jobs_reply, get_data. split.
  - intros postings items Hdata Hall Hne. rewrite Hdata, rbind_ok.
    assert (rbind (Ok (JArr items))
              (fun jobs =>
                 if negb (json_truthy jobs) then Ok NO_JOBS
                 else rbind (first_five env jobs) (fun shown =>
                      rbind (rmap (format_job env) shown) (fun entries =>
                      Ok (JOBS_HEADER ++ join (nl ++ nl) entries))))
            = Ok (JOBS_HEADER ++ join (nl ++ nl)
                    (List.map (format_posting env) (firstn 5 postings)))) as Hreply.
    { destruct Hall as [|p job postings items Hp Hall]; [congruence|].
      rewrite rbind_ok. cbn [json_truthy negb first_five]. rewrite rbind_ok.
      rewrite (@rmap_format_job env _ _
                 (@Forall2_firstn _ _ _ 5 _ _ (Forall2_cons _ _ Hp Hall))).
      now rewrite rbind_ok. }
    rewrite rbind_ok in Hreply. rewrite Hreply.
    split; [reflexivity|]. split.
    + apply length_firstn.
    + intros p1 p2 p3 p4 p5 p6 p7 ->. reflexivity.
  - intros [Hdata | Hdata]; rewrite Hdata; reflexivity.
Qed.

Lemma search_jobs_first_five_witness :
  let job := fun t => posting_json t (lit "Acme") (lit "Pune") (lit "IN")
                                   (lit "https://a.example/" ++ t) in
  let entry := fun t => lit "**" ++ t ++ lit "** at Acme" ++ nl
                        ++ round_pushpin ++ lit " Pune, IN" ++ nl
                        ++ link_symbol ++ lit " [Apply Here](https://a.example/" ++ t
                        ++ lit ")" in
  let answer := fun data =>
                  fixed_env (fun _ => Ok [])
                            (Ok (JObj ((lit "status", JStr (lit "OK")) :: data)))
                            streamlit_chat_message_keywords in
  fst (search_jobs
         (answer [(lit "data",
                   JArr [job (lit "Analyst"); job (lit "Baker"); job (lit "Clerk");
                         job (lit "Driver"); job (lit "Editor"); job (lit "Farmer");
                         job (lit "Guard")])])
         (lit "find jobs") (start initial_state))
  = Ok (JOBS_HEADER ++ entry (lit "Analyst") ++ nl ++ nl ++ entry (lit "Baker") ++ nl ++ nl
        ++ entry (lit "Clerk") ++ nl ++ nl ++ entry (lit "Driver") ++ nl ++ nl
        ++ entry (lit "Editor"))
  /\ fst (search_jobs (answer []) (lit "find jobs") (start initial_state)) = Ok NO_JOBS
  /\ fst (search_jobs (answer [(lit "data", JArr [])]) (lit "find jobs")
                      (start initial_state)) = Ok NO_JOBS.
Proof.
  intros job entry answer.
  pose (post := fun t => posting_of t (lit "Acme") (lit "Pune") (lit "IN")
                                    (lit "https://a.example/" ++ t)).
  split; [|split].
  - destruct (@search_jobs_first_five
                (answer [(lit "data",
                          JArr [job (lit "Analyst"); job (lit "Baker"); job (lit "Clerk");
                                job (lit "Driver"); job (lit "Editor"); job (lit "Farmer");
                                job (lit "Guard")])])
                (lit "find jobs") (start initial_state) _ eq_refl) as [H _].
    destruct (H [post (lit "Analyst"); post (lit "Baker"); post (lit "Clerk");
                 post (lit "Driver"); post (lit "Editor"); post (lit "Farmer");
                 post (lit "Guard")] _ eq_refl) as (_ & _ & H7).
    + repeat (constructor; [repeat split|]). constructor.
    + discriminate.
    + rewrite (H7 _ _ _ _ _ _ _ eq_refl). vm_compute. reflexivity.
  - apply (proj2 (@search_jobs_first_five (answer []) (lit "find jobs")
                    (start initial_state) _ eq_refl)).
    now left.
  - apply (proj2 (@search_jobs_first_five (answer [(lit "data", JArr [])]) (lit "find jobs")
                    (start initial_state) _ eq_refl)).
    now right.
Defined.

(** ** Fault containment *)

Lemma substring_suffix (pre s : pystr) : substring s (pre ++ s).
Proof. exists pre, []. now rewrite app_nil_r. Qed.

(** C8. The two extractors and the job search return a value on
    every input and never raise; a fault of the parser, of a page or
    of the request comes back as the failure message that ends with
    the text of the exception. *)
Theorem extractors_and_search_contain_faults :
  (forall file, exists text, extract_text_from_docx file = Ok text)
  /\ (forall file, exists text, extract_text_from_pdf file = Ok text)
  /\ (forall env query w, exists reply w', search_jobs env query w = (Ok reply, w'))
  /\ (forall file e, docx_paragraphs file = Raise e ->
        extract_text_from_docx file = Ok (ERROR_DOCX e))
  /\ (forall file e, pdf_pages file = Raise e ->
        extract_text_from_pdf file = Ok (ERROR_PDF e))
  /\ (forall file before e after,
        pdf_pages file = Ok (List.map Ok before ++ Raise e :: after) ->
        extract_text_from_pdf file = Ok (ERROR_PDF e))
  /\ (forall env query w e,
        requests_get_json env (search_url env) query (lit "India") = Raise e ->
        fst (search_jobs env query w) = Ok (FAILED_JOBS e))
  /\ (forall env query w body e,
        requests_get_json env (search_url env) query (lit "India") = Ok body ->
        jobs_reply env body = Raise e ->
        fst (search_jobs env query w) = Ok (FAILED_JOBS e))
  /\ (forall e, substring (exc_str e) (ERROR_DOCX e)
                /\ substring (exc_str e) (ERROR_PDF e)
                /\ substring (exc_str e) (FAILED_JOBS e)).
Proof.
  repeat apply conj.
  - apply extract_text_from_docx_total.
  - apply extract_text_from_pdf_total.
  - intros env query w. rewrite search_jobs_run. eauto.
  - intros file e H. unfold extract_text_from_docx. now rewrite H.
  - intros file e H. unfold extract_text_from_pdf. now rewrite H.
  - intros file before e after H. unfold extract_text_from_pdf.
    now rewrite H, rbind_ok, pdf_pages_loop_raises.
  - intros env query w e H. now rewrite search_jobs_run, H.
  - intros env query w body e H1 H2. now rewrite search_jobs_run, H1, rbind_ok, H2.
  - intros e. repeat apply conj.
    + unfold ERROR_DOCX. rewrite app_assoc. apply substring_suffix.
    + unfold ERROR_PDF. rewrite app_assoc. apply substring_suffix.
    + unfold FAILED_JOBS. rewrite app_assoc. apply substring_suffix.
Qed.

Lemma extractors_and_search_contain_faults_witness :
  extract_text_from_docx (pdf_upload (lit "cv.pdf") [lit "Jane"])
  = Ok (ERROR_DOCX (TypeError (lit "not a zip file")))
  /\ extract_text_from_pdf (docx_upload (lit "cv.docx") [lit "Jane"])
     = Ok (ERROR_PDF (TypeError (lit "no /Root object")))
  /\ extract_text_from_pdf
       {| file_name := lit "cv.pdf"; file_type := MIME_PDF; docx_paragraphs := Ok [];
          pdf_pages := Ok [Ok (Some (lit "Jane")); Raise ConnectionError; Ok None] |}
     = Ok (ERROR_PDF ConnectionError)
  /\ fst (search_jobs (fixed_env (fun _ => Ok []) (Raise ConnectionError) [])
                      (lit "find jobs") (start initial_state))
     = Ok (FAILED_JOBS ConnectionError)
  /\ fst (search_jobs (fixed_env (fun _ => Ok []) (Ok (JArr [])) [])
                      (lit "find jobs") (start initial_state))
     = Ok (FAILED_JOBS (TypeError (lit "unsupported operand"))).
Proof.
  destruct extractors_and_search_contain_faults
    as (_ & _ & _ & Hdocx & Hpdf & Hpage & Hget & Hbody & _).
  repeat apply conj.
  - apply Hdocx. reflexivity.
  - apply Hpdf. reflexivity.
  - apply (Hpage _ [Some (lit "Jane")] ConnectionError [Ok None]). reflexivity.
  - apply Hget. reflexivity.
  - apply (Hbody _ _ _ (JArr [])); reflexivity.
Defined.

(** ** Resume upload handling *)

Lemma extracted_total (file : UploadedFile) (r : result pystr) :
  extracted file = Some r -> exists text, r = Ok text.
Proof.
  unfold extracted. intros H.
  destruct (pystr_eqb (file_type file) MIME_PDF).
  - injection H as <-. apply extract_text_from_pdf_total.
  - destruct (pystr_eqb (file_type file) MIME_DOCX); [|discriminate].
    injection H as <-. apply extract_text_from_docx_total.
Qed.

(** An upload declared as PDF or DOCX replaces the stored text. *)
Lemma extract_resume_supported (file : UploadedFile) (text : pystr) (w : World) :
  extracted file = Some (Ok text) ->
  extract_resume file w =
  (Ok tt,
   {| session := {| messages := messages (session w); resume_text := text |};
      trace := (trace w ++ [StWrite (check_mark ++ lit " File uploaded:") (file_name file)])
               ++ [StWrite (page_facing_up ++ lit " File type:") (file_type file)] |}).
Proof.
  unfold extracted, extract_resume, bind, emit, lift, set_resume_text. intros H. cbn.
  destruct (pystr_eqb (file_type file) MIME_PDF).
  - injection H as ->. reflexivity.
  - destruct (pystr_eqb (file_type file) MIME_DOCX); [|discriminate].
    injection H as ->. reflexivity.
Qed.

(** Any other declared type leaves the stored text as it was. *)
Lemma extract_resume_unsupported (file : UploadedFile) (w : World) :
  extracted file = None ->
  extract_resume file w =
  (Ok tt,
   {| session := session w;
      trace := ((trace w ++ [StWrite (check_mark ++ lit " File uploaded:") (file_name file)])
                ++ [StWrite (page_facing_up ++ lit " File type:") (file_type file)])
               ++ [StError UNSUPPORTED_TYPE] |}).
Proof.
  unfold extracted, extract_resume, bind, emit, lift, set_resume_text. intros H. cbn.
  destruct (pystr_eqb (file_type file) MIME_PDF); [discriminate|].
  destruct (pystr_eqb (file_type file) MIME_DOCX); [discriminate|].
  reflexivity.
Qed.

Lemma analyse_resume_unusable (env : Env) (w : World) :
  usable (resume_text (session w)) = false ->
  analyse_resume env w =
  (Ok tt,
   {| session := session w;
      trace := trace w ++ shown_text (resume_text (session w)) ++ [StError FAILED_EXTRACT] |}).
Proof.
  intros H. unfold analyse_resume, bind, get_resume_text, emit. cbn.
  rewrite H. cbn. now rewrite <- !app_assoc.
Qed.

Lemma analyse_resume_answered (env : Env) (w : World) (res : pystr) :
  usable (resume_text (session w)) = true ->
  generate_content env (analysis_prompt (resume_text (session w))) = Ok res ->
  analyse_resume env w =
  (Ok tt,
   {| session := {| messages := messages (session w)
                                ++ [{| role := lit "assistant"; content := res |}];
                    resume_text := resume_text (session w) |};
      trace := trace w ++ shown_text (resume_text (session w))
               ++ [StTextArea (lit "Resume Content") (resume_text (session w));
                   GenerateContent (analysis_prompt (resume_text (session w)));
                   ChatMarkdown (lit "assistant") res;
                   MessagesAppend {| role := lit "assistant"; content := res |}] |}).
Proof.
  intros H Hg.
  unfold analyse_resume, bind, get_resume_text, emit, try_except, model_generate,
    chat_message_markdown, messages_append, lift. cbn.
  rewrite H. cbn. rewrite Hg. cbn. now rewrite <- !app_assoc.
Qed.

Lemma analyse_resume_model_raises (env : Env) (w : World) (e : Exception) :
  usable (resume_text (session w)) = true ->
  generate_content env (analysis_prompt (resume_text (session w))) = Raise e ->
  analyse_resume env w =
  (Ok tt,
   {| session := session w;
      trace := trace w ++ shown_text (resume_text (session w))
               ++ [StTextArea (lit "Resume Content") (resume_text (session w));
                   GenerateContent (analysis_prompt (resume_text (session w)));
                   StError (GEMINI_ERROR e)] |}).
Proof.
  intros H Hg.
  unfold analyse_resume, bind, get_resume_text, emit, try_except, model_generate,
    chat_message_markdown, messages_append, lift. cbn.
  rewrite H. cbn. rewrite Hg. cbn. now rewrite <- !app_assoc.
Qed.

Lemma usable_iff (text : pystr) :
  usable text = true <-> text <> [] /\ ~ In 10060%N text.
Proof.
  unfold usable, cross_mark. rewrite andb_true_iff, negb_true_iff.
  rewrite <- contains_char. split.
  - intros [Ht Hc]. split; [now destruct text | congruence].
  - intros [Ht Hc]. split; [now destruct text|].
    now destruct (contains text [10060%N]).
Qed.

Lemma failure_message_unusable (text : pystr) :
  failure_message text -> usable text = false.
Proof.
  intros H. destruct (usable text) eqn:E; [|reflexivity].
  apply usable_iff in E. destruct E as [_ E]. exfalso. apply E.
  destruct H as [-> | [-> | [[e ->] | [e ->]]]]; now left.
Qed.

(** The run of the upload handling when the stored text is not usable. *)
Lemma upload_handling_unusable (env : Env) (s : SessionState) (file : UploadedFile)
      (text : pystr) :
  extracted file = Some (Ok text) ->
  usable text = false ->
  let run := resume_upload_handling env (Some file) (start s) in
  fst run = Ok tt
  /\ lm_calls (trace (snd run)) = []
  /\ appended (trace (snd run)) = []
  /\ messages (session (snd run)) = messages s
  /\ errors_shown (trace (snd run)) = [FAILED_EXTRACT].
Proof.
  intros H Hu. cbv zeta. unfold resume_upload_handling, bind.
  rewrite (extract_resume_supported _ _ H).
  rewrite analyse_resume_unusable by exact Hu.
  cbn. repeat split.
Qed.

(** For an upload declared as PDF or DOCX: when the extractor returned one of
    its failure messages (as for a DOCX whose paragraphs are all
    empty, which gives "No text found in DOCX."), the language model
    is not called and no turn is appended; when the text is usable and
    the language-model call raises, the error is shown and no turn is
    appended. *)
Theorem analysis_failure_appends_no_turn (env : Env) (s : SessionState) :
  (forall file text,
     extracted file = Some (Ok text) ->
     failure_message text ->
     let run := resume_upload_handling env (Some file) (start s) in
     fst run = Ok tt
     /\ lm_calls (trace (snd run)) = []
     /\ appended (trace (snd run)) = []
     /\ messages (session (snd run)) = messages s
     /\ errors_shown (trace (snd run)) = [FAILED_EXTRACT])
  /\ (forall name n,
        let file := docx_upload name (repeat [] n) in
        let run := resume_upload_handling env (Some file) (start s) in
        extract_text_from_docx file = Ok NO_TEXT_DOCX
        /\ lm_calls (trace (snd run)) = []
        /\ appended (trace (snd run)) = []
        /\ messages (session (snd run)) = messages s)
  /\ (forall file text e,
        extracted file = Some (Ok text) ->
        usable text = true ->
        generate_content env (analysis_prompt text) = Raise e ->
        let run := resume_upload_handling env (Some file) (start s) in
        fst run = Ok tt
        /\ lm_calls (trace (snd run)) = [analysis_prompt text]
        /\ appended (trace (snd run)) = []
        /\ messages (session (snd run)) = messages s
        /\ errors_shown (trace (snd run)) = [GEMINI_ERROR e]).
Proof.
  split; [|split].
  - intros file text H Hf. apply upload_handling_unusable with (text := text).
    + exact H.
    + now apply failure_message_unusable.
  - intros name n file run.
    assert (extract_text_from_docx file = Ok NO_TEXT_DOCX) as E.
    { apply (@extract_text_from_docx_all_blank file (repeat [] n) eq_refl).
      intros para Hin. apply repeat_spec in Hin. now subst para. }
    split; [exact E|].
    assert (extracted file = Some (Ok NO_TEXT_DOCX)) as Hx.
    { unfold extracted. rewrite <- E. reflexivity. }
    destruct (@upload_handling_unusable env s file NO_TEXT_DOCX Hx eq_refl)
      as (_ & H1 & H2 & H3 & _).
    now repeat split.
  - intros file text e H Hu Hg. cbv zeta. unfold resume_upload_handling, bind.
    rewrite (extract_resume_supported _ _ H).
    rewrite (@analyse_resume_model_raises env _ e) by assumption.
    cbn. repeat split.
Qed.

Lemma analysis_failure_appends_no_turn_witness :
  let env := fixed_env (fun _ => Raise ConnectionError) (Ok JNull)
                       streamlit_chat_message_keywords in
  let scanned := resume_upload_handling env
                   (Some (pdf_upload (lit "scan.pdf") [])) (start initial_state) in
  let unread := resume_upload_handling env
                   (Some (pdf_upload (lit "cv.pdf") [lit "Jane Doe"])) (start initial_state) in
  (lm_calls (trace (snd scanned)) = [] /\ messages (session (snd scanned)) = [])
  /\ (errors_shown (trace (snd unread)) = [GEMINI_ERROR ConnectionError]
      /\ messages (session (snd unread)) = []).
Proof.
  intros env scanned unread.
  destruct (analysis_failure_appends_no_turn env initial_state) as (Hfail & _ & Hraise).
  split.
  - destruct (Hfail (pdf_upload (lit "scan.pdf") []) NO_TEXT_PDF eq_refl)
      as (_ & H1 & _ & H2 & _).
    + right. now left.
    + split; [exact H1 | exact H2].
  - destruct (Hraise (pdf_upload (lit "cv.pdf") [lit "Jane Doe"])
                     (lit "Jane Doe" ++ nl) ConnectionError eq_refl eq_refl eq_refl)
      as (_ & _ & _ & H1 & H2).
    split; [exact H2 | exact H1].
Defined.

(** C4, on the code. An upload declared as neither PDF nor DOCX is
    reported as unsupported on line 116, and the handling then goes on
    with the text an earlier upload left in the session: after a
    resume with the text "Alice", the upload of a file declared as
    application/octet-stream shows "Unsupported file type.", calls the
    language model with the analysis prompt of the earlier text and
    appends its answer as an assistant turn. *)
Theorem unsupported_upload_analyses_stored_text (res : pystr) :
  let env := fixed_env (fun _ => Ok res) (Ok JNull) streamlit_chat_message_keywords in
  let upload := fun file => {| user_text := []; mic_text := None;
                               uploaded_file := Some file; submitted := false |} in
  let earlier := session (snd (run_script env (upload (pdf_upload (lit "a.pdf") [lit "Alice"]))
                                          (start initial_state))) in
  let file := declared_as (lit "application/octet-stream")
                          (docx_upload (lit "c.docx") [lit "Carol"]) in
  let run := resume_upload_handling env (Some file) (start earlier) in
  extracted file = None
  /\ resume_text earlier = lit "Alice" ++ nl
  /\ errors_shown (trace (snd run)) = [UNSUPPORTED_TYPE]
  /\ lm_calls (trace (snd run)) = [analysis_prompt (lit "Alice" ++ nl)]
  /\ appended (trace (snd run)) = [assistant_turn res]
  /\ messages (session (snd run)) = messages earlier ++ [assistant_turn res].
Proof.
  cbv zeta. repeat split.
Qed.

(** C10. The upload handling goes on to the analysis exactly when the
    stored text is non-empty and holds no cross mark.  So a resume
    whose own text holds a cross mark is handled as a failed
    extraction: the language model is not called and no turn is
    appended. *)
Theorem cross_mark_in_text_blocks_analysis (env : Env) (s : SessionState) :
  (forall text, usable text = true <-> text <> [] /\ ~ In 10060%N text)
  /\ (forall file text,
        extracted file = Some (Ok text) ->
        In 10060%N text ->
        let run := resume_upload_handling env (Some file) (start s) in
        fst run = Ok tt
        /\ lm_calls (trace (snd run)) = []
        /\ appended (trace (snd run)) = []
        /\ messages (session (snd run)) = messages s
        /\ errors_shown (trace (snd run)) = [FAILED_EXTRACT])
  /\ (forall file text res,
        extracted file = Some (Ok text) ->
        usable text = true ->
        generate_content env (analysis_prompt text) = Ok res ->
        let run := resume_upload_handling env (Some file) (start s) in
        lm_calls (trace (snd run)) = [analysis_prompt text]
        /\ messages (session (snd run))
           = messages s ++ [{| role := lit "assistant"; content := res |}]).
Proof.
  split; [exact usable_iff | split].
  - intros file text H Hin. apply upload_handling_unusable with (text := text); [exact H|].
    destruct (usable text) eqn:E; [|reflexivity].
    apply usable_iff in E. now destruct E.
  - intros file text res H Hu Hg. cbv zeta. unfold resume_upload_handling, bind.
    rewrite (extract_resume_supported _ _ H).
    rewrite (@analyse_resume_answered env _ res) by assumption.
    cbn. repeat split.
Qed.

Lemma cross_mark_in_text_blocks_analysis_witness :
  let env := fixed_env (fun _ => Ok (lit "A strong profile.")) (Ok JNull)
                       streamlit_chat_message_keywords in
  let file := docx_upload (lit "cv.docx")
                [lit "Jane Doe"; lit "Smoker: " ++ cross_mark; lit "Driver: yes"] in
  let run := resume_upload_handling env (Some file) (start initial_state) in
  extract_text_from_docx file
  = Ok (lit "Jane Doe" ++ nl ++ lit "Smoker: " ++ cross_mark ++ nl ++ lit "Driver: yes")
  /\ lm_calls (trace (snd run)) = []
  /\ messages (session (snd run)) = [].
Proof.
  intros env file run. split; [reflexivity|].
  destruct (cross_mark_in_text_blocks_analysis env initial_state) as (_ & H & _).
  destruct (H file
              (lit "Jane Doe" ++ nl ++ lit "Smoker: " ++ cross_mark ++ nl ++ lit "Driver: yes")
              eq_refl) as (_ & H1 & _ & H2 & _).
  - vm_compute. tauto.
  - split; [exact H1 | exact H2].
Defined.

(** ** Chat submission *)

(** One chat submission with a text: the user turn is appended, then
    the one service call of the route is made, and the reply is shown
    and appended if [st.chat_message] takes the keyword [Avatar]; the
    call raises otherwise, with the user turn alone in the history. *)
Lemma handle_chat_submission_run (env : Env) (ut : pystr) (mic : option pystr)
      (user_input : pystr) (w : World) :
  resolve_input ut mic = Some user_input ->
  truthy user_input = true ->
  handle_chat_submission env ut mic true w =
  let msgs := messages (session w) ++ [user_turn user_input] in
  let reply := bot_reply env msgs user_input in
  let tr := trace w ++ [ChatMarkdown (lit "user") user_input;
                        MessagesAppend (user_turn user_input);
                        service_call env msgs user_input] in
  if existsb (pystr_eqb (lit "Avatar")) (chat_message_keywords env) then
    (Ok tt,
     {| session := {| messages := msgs ++ [assistant_turn reply];
                      resume_text := resume_text (session w) |};
        trace := tr ++ [ChatMarkdown (lit "assistant") reply;
                        MessagesAppend (assistant_turn reply)] |})
  else
    (Raise (TypeError_keyword (lit "Avatar")),
     {| session := {| messages := msgs; resume_text := resume_text (session w) |};
        trace := tr |}).
Proof.
  intros Hres Ht. unfold handle_chat_submission. rewrite Hres, Ht. cbv zeta.
  unfold bot_reply, service_call.
  destruct (is_job_search (unicode_lower env) user_input).
  - cbv beta iota zeta delta
      [bind chat_message_markdown messages_append get_messages emit lift try_except
       model_generate ret user_turn assistant_turn andb bind_keywords].
    rewrite search_jobs_run.
    cbv beta iota zeta delta [bind_keywords session trace messages resume_text].
    destruct (existsb (pystr_eqb (lit "Avatar")) (chat_message_keywords env));
      cbv beta iota zeta delta [session trace messages resume_text];
      rewrite <- !app_assoc; reflexivity.
  - cbv beta iota zeta delta
      [bind chat_message_markdown messages_append get_messages emit lift try_except
       model_generate ret user_turn assistant_turn andb bind_keywords
       session trace messages resume_text].
    destruct (generate_content env _);
      destruct (existsb (pystr_eqb (lit "Avatar")) (chat_message_keywords env));
      cbv beta iota zeta delta [session trace messages resume_text];
      rewrite <- !app_assoc; reflexivity.
Qed.

(** When the installed [st.chat_message] takes the keyword [Avatar],
    a submission ends with the user turn and one assistant turn in the
    history, the user turn appended before the service call; a raising
    language model gives the error text as reply. *)
Lemma chat_submission_records_reply (env : Env) (s : SessionState) (ut : pystr)
      (mic : option pystr) (user_input : pystr) :
  resolve_input ut mic = Some user_input ->
  truthy user_input = true ->
  existsb (pystr_eqb (lit "Avatar")) (chat_message_keywords env) = true ->
  let msgs := messages s ++ [user_turn user_input] in
  let reply := bot_reply env msgs user_input in
  let run := handle_chat_submission env ut mic true (start s) in
  fst run = Ok tt
  /\ messages (session (snd run)) = msgs ++ [assistant_turn reply]
  /\ trace (snd run) = [ChatMarkdown (lit "user") user_input;
                        MessagesAppend (user_turn user_input);
                        service_call env msgs user_input;
                        ChatMarkdown (lit "assistant") reply;
                        MessagesAppend (assistant_turn reply)]
  /\ (forall e, is_job_search (unicode_lower env) user_input = false ->
                generate_content env (full_prompt env msgs user_input) = Raise e ->
                reply = CHAT_ERROR e).
Proof.
  intros Hres Ht Hkw. cbv zeta.
  rewrite (handle_chat_submission_run env ut mic (start s) Hres Ht). cbv zeta.
  rewrite Hkw. cbn [fst snd session trace messages start app]. repeat split.
  intros e Hj Hg. unfold bot_reply. now rewrite Hj, Hg.
Qed.

(** C2, on the code. With Streamlit's [chat_message], which has no
    parameter [Avatar], every submission with a text stops at line 168
    with a TypeError: the user turn is in the history, the reply has
    been computed, and no assistant turn is appended. *)
Theorem chat_reply_turn_lost_to_keyword (env : Env) (s : SessionState) (c : N)
        (rest : pystr) (mic : option pystr) :
  let user_input := c :: rest in
  let run := handle_chat_submission (with_streamlit env) user_input mic true (start s) in
  fst run = Raise (TypeError_keyword (lit "Avatar"))
  /\ messages (session (snd run)) = messages s ++ [user_turn user_input]
  /\ appended (trace (snd run)) = [user_turn user_input].
Proof.
  cbv zeta.
  rewrite (@handle_chat_submission_run (with_streamlit env) (c :: rest) mic (c :: rest)
             (start s) eq_refl eq_refl).
  cbv zeta.
  change (existsb (pystr_eqb (lit "Avatar")) (chat_message_keywords (with_streamlit env)))
    with false.
  cbn [fst snd session trace messages start app]. repeat split.
  unfold service_call. now destruct (is_job_search _ _).
Qed.

(** ** The prompt of a general query *)

Lemma join_snoc (sep : pystr) (parts : list pystr) (last : pystr) :
  join sep (parts ++ [last]) =
  match parts with
  | [] => last
  | _ => join sep parts ++ sep ++ last
  end.
Proof.
  induction parts as [|p parts IH]; [reflexivity|].
  destruct parts as [|q parts]; [reflexivity|].
  change (join sep ((p :: q :: parts) ++ [last]))
    with (p ++ sep ++ join sep ((q :: parts) ++ [last])).
  rewrite IH.
  change (join sep (p :: q :: parts)) with (p ++ sep ++ join sep (q :: parts)).
  now rewrite <- !app_assoc.
Qed.

(** The prompt is built after the user turn has been appended, so the
    serialized history already ends with the utterance, which then
    follows once more. *)
Lemma full_prompt_after_append (env : Env) (msgs : list Turn) (user_input : pystr) :
  full_prompt env (msgs ++ [user_turn user_input]) user_input =
  DOMAIN_PROMPT ++ nl ++ nl
  ++ match msgs with
     | [] => []
     | _ => chat_history env msgs ++ nl
     end
  ++ (lit "User: " ++ user_input) ++ nl ++ (lit "User: " ++ user_input).
Proof.
  unfold full_prompt, chat_history. rewrite map_app. cbn [List.map].
  rewrite join_snoc.
  change (capitalize (unicode_capitalize env) (role (user_turn user_input)))
    with (lit "User").
  change (content (user_turn user_input)) with user_input.
  destruct msgs as [|m msgs].
  - cbn [List.map]. rewrite <- !app_assoc. reflexivity.
  - cbn [List.map]. rewrite <- !app_assoc. reflexivity.
Qed.

Lemma general_query_prompt (env : Env) (s : SessionState) (ut : pystr)
      (mic : option pystr) (user_input : pystr) :
  resolve_input ut mic = Some user_input ->
  truthy user_input = true ->
  is_job_search (unicode_lower env) user_input = false ->
  lm_calls (trace (snd (handle_chat_submission env ut mic true (start s))))
  = [full_prompt env (messages s ++ [user_turn user_input]) user_input].
Proof.
  intros Hres Ht Hj.
  rewrite (handle_chat_submission_run env ut mic (start s) Hres Ht). cbv zeta.
  unfold service_call. rewrite Hj.
  now destruct (existsb _ _).
Qed.

(** C3, on the code. For the first turn "What skills do I need for
    data science?" the route is the general query and the prompt sent
    is the preamble, a blank line, and the line "User: ..." twice: the
    utterance occurs two times in it. *)
Theorem first_turn_prompt_repeats_utterance (env : Env) :
  let u := lit "What skills do I need for data science?" in
  let run := handle_chat_submission env u None true (start initial_state) in
  classify (unicode_lower env) u = GENERAL_QUERY
  /\ lm_calls (trace (snd run))
     = [DOMAIN_PROMPT ++ nl ++ nl ++ lit "User: " ++ u ++ nl ++ lit "User: " ++ u]
  /\ occurrences (DOMAIN_PROMPT ++ nl ++ nl ++ lit "User: " ++ u ++ nl ++ lit "User: " ++ u) u
     = 2.
Proof.
  cbv zeta. split; [reflexivity | split; [|reflexivity]].
  rewrite (@general_query_prompt env initial_state
             (lit "What skills do I need for data science?") None
             (lit "What skills do I need for data science?") eq_refl eq_refl eq_refl).
  change (messages initial_state) with (@nil Turn).
  rewrite (full_prompt_after_append env []). rewrite <- !app_assoc. reflexivity.
Qed.

(** ** The stored resume text *)

Section ResumeBlind.
Context {A B : Type}.

Lemma blind_ret (a : A) : resume_blind (ret a).
Proof. intros w1 w2 H. repeat split; apply H. Qed.

Lemma blind_lift (r : result A) : resume_blind (lift r).
Proof. intros w1 w2 H. repeat split; apply H. Qed.

Lemma blind_bind (m : M A) (k : A -> M B) :
  resume_blind m -> (forall a, resume_blind (k a)) -> resume_blind (bind m k).
Proof.
  intros Hm Hk w1 w2 H. unfold bind.
  destruct (Hm w1 w2 H) as (Hr & Ha & Ht).
  destruct (m w1) as [r1 w1'], (m w2) as [r2 w2']. cbn [fst snd] in *. subst r2.
  destruct r1 as [a|e].
  - destruct (Hk a w1' w2' Ha) as (Hr' & Ha' & Ht').
    repeat split; try assumption; try apply Ha'. congruence.
  - cbn [fst snd]. repeat split; try assumption; apply Ha.
Qed.

Lemma blind_try_except (body : M A) (handler : Exception -> M A) :
  resume_blind body -> (forall e, resume_blind (handler e)) ->
  resume_blind (try_except body handler).
Proof.
  intros Hm Hk w1 w2 H. unfold try_except.
  destruct (Hm w1 w2 H) as (Hr & Ha & Ht).
  destruct (body w1) as [r1 w1'], (body w2) as [r2 w2']. cbn [fst snd] in *. subst r2.
  destruct r1 as [a|e].
  - cbn [fst snd]. repeat split; try assumption; apply Ha.
  - destruct (Hk e w1' w2' Ha) as (Hr' & Ha' & Ht').
    repeat split; try assumption; try apply Ha'. congruence.
Qed.
End ResumeBlind.

Lemma blind_emit (ev : event) : resume_blind (emit ev).
Proof.
  intros w1 w2 [Hm Ht]. unfold emit, agree. cbn. rewrite Ht. repeat split. exact Hm.
Qed.

Lemma blind_messages_append (turn : Turn) : resume_blind (messages_append turn).
Proof.
  intros w1 w2 [Hm Ht]. unfold messages_append, agree. cbn. rewrite Ht, Hm. repeat split.
Qed.

Lemma blind_for_each {A} (l : list A) (body : A -> M unit) :
  (forall x, resume_blind (body x)) -> resume_blind (for_each l body).
Proof.
  intros Hb. induction l as [|x l IH]; simpl.
  - apply blind_ret.
  - apply blind_bind; [apply Hb | intros _; exact IH].
Qed.

Lemma blind_chat_message_markdown (env : Env) (name : pystr)
      (kwargs : list (pystr * pystr)) (text : pystr) :
  resume_blind (chat_message_markdown env name kwargs text).
Proof. apply blind_bind; [apply blind_lift | intros _; apply blind_emit]. Qed.

Lemma blind_model_generate (env : Env) (prompt : pystr) :
  resume_blind (model_generate env prompt).
Proof. apply blind_bind; [apply blind_emit | intros _; apply blind_lift]. Qed.

Lemma blind_search_jobs (env : Env) (query : pystr) : resume_blind (search_jobs env query).
Proof.
  apply blind_try_except; [|intros e; apply blind_ret].
  apply blind_bind; [|intros body; apply blind_lift].
  apply blind_bind; [apply blind_emit | intros _; apply blind_lift].
Qed.

Lemma blind_with_messages {B} (k : list Turn -> M B) :
  (forall msgs, resume_blind (k msgs)) -> resume_blind (bind get_messages k).
Proof.
  intros Hk w1 w2 H. unfold bind, get_messages. cbv beta iota.
  pose proof H as [Hm _]. rewrite <- Hm. now apply Hk.
Qed.

Lemma blind_show_chat_history (env : Env) : resume_blind (show_chat_history env).
Proof.
  apply blind_with_messages. intros msgs. apply blind_for_each.
  intros msg. apply blind_chat_message_markdown.
Qed.

Lemma blind_handle_chat_submission (env : Env) (ut : pystr) (mic : option pystr)
      (sub : bool) :
  resume_blind (handle_chat_submission env ut mic sub).
Proof.
  unfold handle_chat_submission.
  destruct (resolve_input ut mic) as [user_input|]; [|apply blind_ret].
  destruct (sub && truthy user_input); [|apply blind_ret].
  apply blind_bind; [apply blind_chat_message_markdown | intros _].
  apply blind_bind; [apply blind_messages_append | intros _].
  apply blind_with_messages. intros msgs.
  apply blind_bind.
  - destruct (is_job_search (unicode_lower env) user_input).
    + apply blind_search_jobs.
    + apply blind_try_except; [apply blind_model_generate | intros e; apply blind_ret].
  - intros reply.
    apply blind_bind; [apply blind_chat_message_markdown | intros _].
    apply blind_messages_append.
Qed.

Lemma analyse_resume_keeps_text (env : Env) (w : World) :
  resume_text (session (snd (analyse_resume env w))) = resume_text (session w).
Proof.
  destruct (usable (resume_text (session w))) eqn:Hu.
  - destruct (generate_content env (analysis_prompt (resume_text (session w)))) eqn:Hg.
    + now rewrite (analyse_resume_answered env w Hu Hg).
    + now rewrite (analyse_resume_model_raises env w Hu Hg).
  - now rewrite (analyse_resume_unusable env w Hu).
Qed.

(** C9, as stated, fails: the extracted text stays in the session
    state after the turn, and a later upload with another declared
    media type is analysed with the text of the earlier resume.  Two
    sessions that differ only in the resume uploaded before send
    different prompts on the same later turn. *)
Lemma stored_resume_reused_counterexample :
  let env := fixed_env (fun _ => Ok (lit "ok")) (Ok JNull)
                       streamlit_chat_message_keywords in
  let upload := fun file => {| user_text := []; mic_text := None;
                               uploaded_file := Some file; submitted := false |} in
  let alice := session (snd (run_script env (upload (pdf_upload (lit "a.pdf") [lit "Alice"]))
                                        (start initial_state))) in
  let bob := session (snd (run_script env (upload (pdf_upload (lit "b.pdf") [lit "Bob"]))
                                      (start initial_state))) in
  let later := upload (declared_as (lit "application/octet-stream")
                                   (docx_upload (lit "c.docx") [lit "Carol"])) in
  messages alice = messages bob
  /\ resume_text alice = lit "Alice" ++ nl
  /\ lm_calls (trace (snd (run_script env later (start alice))))
     = [analysis_prompt (lit "Alice" ++ nl)]
  /\ lm_calls (trace (snd (run_script env later (start bob))))
     = [analysis_prompt (lit "Bob" ++ nl)]
  /\ lm_calls (trace (snd (run_script env later (start alice))))
     <> lm_calls (trace (snd (run_script env later (start bob)))).
Proof.
  cbv zeta. repeat split. vm_compute. discriminate.
Qed.

Lemma show_chat_history_run (env : Env) (w : World) :
  show_chat_history env w =
  (Ok tt,
   {| session := session w;
      trace := trace w ++ List.map (fun msg => ChatMarkdown (role msg) (content msg))
                                   (messages (session w)) |}).
Proof.
  unfold show_chat_history, bind, get_messages. cbv beta iota.
  generalize (messages (session w)) as msgs. intros msgs.
  destruct w as [s tr]. cbn [session trace]. revert tr.
  induction msgs as [|msg msgs IH]; intros tr.
  - cbn. now rewrite app_nil_r.
  - cbn [for_each List.map]. unfold bind at 1.
    unfold chat_message_markdown, bind, lift, emit. cbn [bind_keywords session trace].
    rewrite IH. now rewrite <- app_assoc.
Qed.

Lemma run_script_run (env : Env) (sub : Submission) (w : World) :
  run_script env sub w =
  (resume_upload_handling env (uploaded_file sub) ;;
   handle_chat_submission env (user_text sub) (mic_text sub) (submitted sub))
    {| session := session w;
       trace := trace w ++ List.map (fun msg => ChatMarkdown (role msg) (content msg))
                                    (messages (session w)) |}.
Proof.
  unfold run_script. unfold bind at 1. now rewrite show_chat_history_run.
Qed.

Lemma upload_then_chat_supported (env : Env) (file : UploadedFile) (text : pystr)
      (k : M unit) (w : World) :
  extracted file = Some (Ok text) ->
  (resume_upload_handling env (Some file) ;; k) w =
  (analyse_resume env ;; k)
    {| session := {| messages := messages (session w); resume_text := text |};
       trace := (trace w ++ [StWrite (check_mark ++ lit " File uploaded:") (file_name file)])
                ++ [StWrite (page_facing_up ++ lit " File type:") (file_type file)] |}.
Proof.
  intros H. unfold resume_upload_handling, bind.
  now rewrite (extract_resume_supported _ _ H).
Qed.

Lemma analyse_then_blind_keeps_text (env : Env) (k : M unit) (w : World) :
  resume_blind k ->
  resume_text (session (snd ((analyse_resume env ;; k) w))) = resume_text (session w).
Proof.
  intros Hk. unfold bind.
  pose proof (analyse_resume_keeps_text env w) as Hkeep.
  destruct (analyse_resume env w) as [[[]|e] w'] eqn:Ea; cbn [fst snd] in *.
  - destruct (Hk w' w' (conj eq_refl eq_refl)) as (_ & _ & Hk'). congruence.
  - exact Hkeep.
Qed.

(** C9, amended. The extracted text (or failure message) is kept in
    the session state after the turn: a turn without upload leaves it
    as it was, an upload declared as PDF or DOCX replaces it by the
    newly extracted text before it is read, and only the analysis of
    a turn with an upload reads it.  So from two sessions with the
    same conversation history, a turn without upload, or with an
    upload declared as PDF or DOCX, gives the same result, the same
    calls and the same history whatever text was stored before. *)
Theorem stored_resume_replaced_before_read (env : Env) (sub : Submission)
        (s1 s2 : SessionState) :
  messages s1 = messages s2 ->
  (uploaded_file sub = None \/
   exists file text, uploaded_file sub = Some file /\ extracted file = Some (Ok text)) ->
  let run1 := run_script env sub (start s1) in
  let run2 := run_script env sub (start s2) in
  fst run1 = fst run2
  /\ trace (snd run1) = trace (snd run2)
  /\ messages (session (snd run1)) = messages (session (snd run2))
  /\ (uploaded_file sub = None ->
      resume_text (session (snd run1)) = resume_text s1)
  /\ (forall file text,
        uploaded_file sub = Some file -> extracted file = Some (Ok text) ->
        resume_text (session (snd run1)) = text).
Proof.
  intros Hm Hup. cbv zeta. rewrite !run_script_run.
  cbn [start session trace app]. rewrite <- Hm.
  set (shown := List.map (fun msg => ChatMarkdown (role msg) (content msg)) (messages s1)).
  set (chat := handle_chat_submission env (user_text sub) (mic_text sub) (submitted sub)).
  assert (resume_blind chat) as Hchat by apply blind_handle_chat_submission.
  destruct Hup as [Hnone | (file & text & Hsome & Hx)].
  - rewrite Hnone. cbn [resume_upload_handling].
    assert (resume_blind (ret tt ;; chat)) as Hb
      by (apply blind_bind; [apply blind_ret | intros _; exact Hchat]).
    destruct (Hb {| session := s1; trace := shown |} {| session := s2; trace := shown |})
      as (Hr & [Ha1 Ha2] & Ht); [split; [exact Hm | reflexivity]|].
    split; [exact Hr | split; [exact Ha2 | split; [exact Ha1 | split]]].
    + intros _. exact Ht.
    + intros f t Hf. discriminate.
  - rewrite Hsome. rewrite !(@upload_then_chat_supported env file text chat _ Hx).
    cbn [session trace messages]. rewrite <- Hm.
    split; [reflexivity | split; [reflexivity | split; [reflexivity | split]]].
    + intros Hf. discriminate.
    + intros f t Hf Hxf.
      assert (t = text) as -> by congruence.
      now rewrite (@analyse_then_blind_keeps_text env chat _ Hchat).
Qed.

Lemma stored_resume_replaced_before_read_witness :
  let env := fixed_env (fun _ => Ok (lit "ok")) (Ok JNull)
                       streamlit_chat_message_keywords in
  let sub := {| user_text := []; mic_text := None;
                uploaded_file := Some (pdf_upload (lit "b.pdf") [lit "Bob"]);
                submitted := false |} in
  let earlier := {| messages := []; resume_text := lit "Alice" ++ nl |} in
  trace (snd (run_script env sub (start earlier)))
  = trace (snd (run_script env sub (start initial_state)))
  /\ resume_text (session (snd (run_script env sub (start earlier)))) = lit "Bob" ++ nl.
Proof.
  intros env sub earlier.
  destruct (@stored_resume_replaced_before_read env sub earlier initial_state eq_refl)
    as (_ & Htrace & _ & _ & Htext).
  - right. exists (pdf_upload (lit "b.pdf") [lit "Bob"]), (lit "Bob" ++ nl).
    split; reflexivity.
  - split; [exact Htrace|].
    apply (Htext (pdf_upload (lit "b.pdf") [lit "Bob"])); reflexivity.
Defined.

(** * Further properties of the script *)

(** ** Routing: letter case and embedding *)

Lemma ascii_lower_upper (c : N) : ascii_lower (ascii_upper c) = ascii_lower c.
Proof.
  unfold ascii_lower, ascii_upper.
  destruct ((97 <=? c) && (c <=? 122))%N eqn:E; [|reflexivity].
  apply andb_true_iff in E. destruct E as [E1 E2].
  apply N.leb_le in E1, E2.
  destruct ((65 <=? c - 32) && (c - 32 <=? 90))%N eqn:F.
  - destruct ((65 <=? c) && (c <=? 90))%N eqn:G.
    + apply andb_true_iff in G. destruct G as [_ G]. apply N.leb_le in G. lia.
    + lia.
  - apply andb_false_iff in F. destruct F as [F | F]; apply N.leb_gt in F; lia.
Qed.

Lemma is_ascii_upper (c : N) : is_ascii c = true -> is_ascii (ascii_upper c) = true.
Proof.
  unfold is_ascii, ascii_upper. intros H. apply N.ltb_lt in H.
  destruct ((97 <=? c) && (c <=? 122))%N; apply N.ltb_lt; lia.
Qed.

Lemma lower_upper (ul : pystr -> pystr) (u : pystr) :
  forallb is_ascii u = true ->
  lower ul (List.map ascii_upper u) = lower ul u.
Proof.
  intros H. unfold lower. rewrite H.
  assert (forallb is_ascii (List.map ascii_upper u) = true) as ->.
  { rewrite forallb_forall in *. intros c Hc. apply in_map_iff in Hc.
    destruct Hc as [d [<- Hd]]. apply is_ascii_upper. now apply H. }
  rewrite map_map. apply map_ext. apply ascii_lower_upper.
Qed.

(** X1. An utterance of ASCII characters is routed the same way when
    its letters are all put in upper case. *)
Theorem classify_ignores_case (ul : pystr -> pystr) (u : pystr) :
  forallb is_ascii u = true ->
  classify ul (List.map ascii_upper u) = classify ul u.
Proof.
  intros H. unfold classify, is_job_search. now rewrite (lower_upper ul u H).
Qed.

Lemma classify_ignores_case_witness :
  classify (fun s => s) (List.map ascii_upper (lit "Find me a Job"))
  = classify (fun s => s) (lit "Find me a Job")
  /\ List.map ascii_upper (lit "Find me a Job") = lit "FIND ME A JOB".
Proof.
  split; [|reflexivity].
  apply classify_ignores_case. reflexivity.
Defined.

Lemma lower_app_ascii (ul : pystr -> pystr) (a b : pystr) :
  forallb is_ascii a = true -> forallb is_ascii b = true ->
  lower ul (a ++ b) = lower ul a ++ lower ul b.
Proof.
  intros Ha Hb. unfold lower. rewrite forallb_app, Ha, Hb. apply map_app.
Qed.

Lemma contains_embed (s sub pre post : pystr) :
  contains s sub = true -> contains (pre ++ s ++ post) sub = true.
Proof.
  rewrite !contains_spec. intros [a [b ->]].
  exists (pre ++ a), (b ++ post). now rewrite <- !app_assoc.
Qed.

Lemma existsb_contains_embed (words : list pystr) (s pre post : pystr) :
  existsb (fun k => contains s k) words = true ->
  existsb (fun k => contains (pre ++ s ++ post) k) words = true.
Proof.
  rewrite !existsb_exists. intros [k [Hk Hc]]. exists k. split; [assumption|].
  now apply contains_embed.
Qed.

(** X2. The vocabulary is matched anywhere in the text, inside longer
    words too: an ASCII utterance that is routed to the job search
    still is when any ASCII text is put before and after it. *)
Theorem classify_job_search_embedded (ul : pystr -> pystr) (pre u post : pystr) :
  forallb is_ascii pre = true ->
  forallb is_ascii u = true ->
  forallb is_ascii post = true ->
  classify ul u = JOB_SEARCH ->
  classify ul (pre ++ u ++ post) = JOB_SEARCH.
Proof.
  intros Hpre Hu Hpost. unfold classify.
  destruct (is_job_search ul u) eqn:E; [intros _ | discriminate].
  assert (is_job_search ul (pre ++ u ++ post) = true) as ->; [|reflexivity].
  unfold is_job_search in *.
  rewrite (lower_app_ascii ul pre (u ++ post) Hpre)
    by (rewrite forallb_app, Hu, Hpost; reflexivity).
  rewrite (lower_app_ascii ul u post Hu Hpost).
  apply andb_true_iff in E. destruct E as [Ej Es].
  apply andb_true_iff. split; now apply existsb_contains_embed.
Qed.

Lemma classify_job_search_embedded_witness :
  classify (fun s => s) (lit "get job") = JOB_SEARCH
  /\ classify (fun s => s) (lit "I will never for" ++ lit "get job" ++ lit "less years")
     = JOB_SEARCH.
Proof.
  split; [reflexivity|].
  apply classify_job_search_embedded; reflexivity.
Defined.

(** ** Extractors: what the returned text looks like *)

(** X3. Whatever the DOCX extractor returns, text or message, is not
    empty and not white space only. *)
Theorem docx_extraction_never_blank (file : UploadedFile) (text : pystr) :
  extract_text_from_docx file = Ok text -> strip text <> [].
Proof.
  intros H E. apply strip_nil_iff in E.
  unfold extract_text_from_docx in H.
  destruct (docx_paragraphs file) as [paragraphs|e]; simpl in H.
  - rewrite truthy_strip, negb_involutive in H.
    destruct (blank (join nl _)) eqn:B; injection H as <-.
    + unfold NO_TEXT_DOCX in E. now rewrite cross_mark_not_blank in E.
    + congruence.
  - injection H as <-. unfold ERROR_DOCX in E. now rewrite cross_mark_not_blank in E.
Qed.

Lemma docx_extraction_never_blank_witness :
  strip (lit " Jane " ++ nl ++ lit "Doe  ") <> [].
Proof.
  apply (@docx_extraction_never_blank
           (docx_upload (lit "cv.docx") [lit " Jane "; lit " "; lit "Doe  "])).
  reflexivity.
Defined.

Lemma filter_idempotent {A} (f : A -> bool) (l : list A) :
  filter f (filter f l) = filter f l.
Proof.
  induction l as [|x l IH]; simpl; [reflexivity|].
  destruct (f x) eqn:E; simpl; [rewrite E, IH|]; auto.
Qed.

(** X4. Paragraphs that are empty or white space only leave no trace
    in the DOCX result: the document without them extracts to the
    same string. *)
Theorem docx_blank_paragraphs_invisible (name type : pystr)
        (pages : result (list (result (option pystr)))) (paragraphs : list pystr) :
  extract_text_from_docx
    {| file_name := name; file_type := type;
       docx_paragraphs := Ok paragraphs; pdf_pages := pages |}
  = extract_text_from_docx
      {| file_name := name; file_type := type;
         docx_paragraphs := Ok (filter (fun para => negb (blank para)) paragraphs);
         pdf_pages := pages |}.
Proof.
  rewrite (@extract_text_from_docx_parsed
             {| file_name := name; file_type := type;
                docx_paragraphs := Ok paragraphs; pdf_pages := pages |}
             paragraphs eq_refl).
  rewrite (@extract_text_from_docx_parsed
             {| file_name := name; file_type := type;
                docx_paragraphs := Ok (filter (fun para => negb (blank para)) paragraphs);
                pdf_pages := pages |}
             (filter (fun para => negb (blank para)) paragraphs) eq_refl).
  cbv zeta. now rewrite filter_idempotent.
Qed.

Lemma page_contributions_end (texts : list (option pystr)) :
  List.concat (List.map page_contribution texts) = []
  \/ exists body, List.concat (List.map page_contribution texts) = body ++ nl.
Proof.
  induction texts as [|text texts IH]; [now left|].
  cbn [List.map List.concat].
  destruct text as [[|c t]|]; cbn [page_contribution app]; try exact IH.
  right. destruct IH as [-> | [body ->]].
  - exists (c :: t). now rewrite app_nil_r.
  - exists ((c :: t) ++ nl ++ body). now rewrite <- !app_assoc.
Qed.

(** X5. The text of a PDF is returned untrimmed: when the pages give
    text that is not all white space, the result ends with the newline
    added after the last page with text. *)
Theorem pdf_extraction_ends_with_newline (file : UploadedFile)
        (texts : list (option pystr)) :
  pdf_pages file = Ok (List.map Ok texts) ->
  strip (List.concat (List.map page_contribution texts)) <> [] ->
  exists body, extract_text_from_pdf file = Ok (body ++ nl).
Proof.
  intros H Hs. unfold extract_text_from_pdf.
  rewrite H, rbind_ok, pdf_pages_loop_texts, rbind_ok. cbn [app].
  destruct (strip (List.concat (List.map page_contribution texts))) eqn:E;
    [now contradiction Hs|]. cbn [truthy negb rtry].
  destruct (page_contributions_end texts) as [E0 | [body E0]].
  - rewrite E0 in E. discriminate.
  - exists body. now rewrite E0.
Qed.

Lemma pdf_extraction_ends_with_newline_witness :
  exists body,
    extract_text_from_pdf
      {| file_name := lit "cv.pdf"; file_type := MIME_PDF; docx_paragraphs := Ok [];
         pdf_pages := Ok [Ok (Some (lit "Jane")); Ok None] |}
    = Ok (body ++ nl).
Proof.
  apply (@pdf_extraction_ends_with_newline
           {| file_name := lit "cv.pdf"; file_type := MIME_PDF; docx_paragraphs := Ok [];
              pdf_pages := Ok [Ok (Some (lit "Jane")); Ok None] |}
           [Some (lit "Jane"); None] eq_refl).
  vm_compute. discriminate.
Defined.

(** X6. A page without text ([None] or the empty string) changes
    nothing: the PDF extracts to the same string with that page taken
    out, wherever it stands. *)
Theorem pdf_empty_page_invisible (name type : pystr) (paragraphs : result (list pystr))
        (before after : list (option pystr)) (empty : option pystr) :
  empty = None \/ empty = Some [] ->
  extract_text_from_pdf
    {| file_name := name; file_type := type; docx_paragraphs := paragraphs;
       pdf_pages := Ok (List.map Ok (before ++ empty :: after)) |}
  = extract_text_from_pdf
      {| file_name := name; file_type := type; docx_paragraphs := paragraphs;
         pdf_pages := Ok (List.map Ok (before ++ after)) |}.
Proof.
  intros He. unfold extract_text_from_pdf. cbn [pdf_pages].
  rewrite !rbind_ok, !pdf_pages_loop_texts.
  rewrite !map_app, !concat_app. cbn [List.map List.concat].
  now destruct He as [-> | ->].
Qed.

Lemma pdf_empty_page_invisible_witness :
  extract_text_from_pdf
    {| file_name := lit "cv.pdf"; file_type := MIME_PDF; docx_paragraphs := Ok [];
       pdf_pages := Ok (List.map Ok ([Some (lit "Jane")] ++ Some [] :: [Some (lit "Doe")])) |}
  = Ok (lit "Jane" ++ nl ++ lit "Doe" ++ nl).
Proof.
  refine (eq_trans (@pdf_empty_page_invisible (lit "cv.pdf") MIME_PDF (Ok [])
                      [Some (lit "Jane")] [Some (lit "Doe")] (Some []) _) eq_refl).
  now right.
Defined.

(** ** Job search: what of the response is used *)

Lemma jobs_reply_list (env : Env) (fields : list (pystr * json)) (items : list json) :
  dict_get fields (lit "data") = Some (JArr items) ->
  jobs_reply env (JObj fields) =
  match items with
  | [] => Ok NO_JOBS
  | _ => rbind (rmap (format_job env) (firstn 5 items))
               (fun entries => Ok (JOBS_HEADER ++ join (nl ++ nl) entries))
  end.
Proof.
  intros H. unfold jobs_reply, get_data. rewrite H, rbind_ok.
  destruct items; reflexivity.
Qed.

(** X7. Only the first five elements of [data] are looked at: the
    reply to a response with a list under [data] is the reply to a
    response that holds nothing but the first five elements of that
    list, so nothing after the fifth posting (and no other field of
    the response) can change it or make it fail. *)
Theorem search_jobs_reads_first_five (env : Env) (query : pystr) (w : World)
        (fields : list (pystr * json)) (items : list json) :
  requests_get_json env (search_url env) query (lit "India") = Ok (JObj fields) ->
  dict_get fields (lit "data") = Some (JArr items) ->
  fst (search_jobs env query w)
  = Ok match jobs_reply env (JObj [(lit "data", JArr (firstn 5 items))]) with
       | Ok reply => reply
       | Raise e => FAILED_JOBS e
       end.
Proof.
  intros Hget Hdata. rewrite search_jobs_run, Hget, rbind_ok. cbn [fst].
  rewrite (jobs_reply_list env fields Hdata).
  rewrite (@jobs_reply_list env [(lit "data", JArr (firstn 5 items))]
             (firstn 5 items) eq_refl).
  rewrite firstn_firstn. cbn [Nat.min].
  destruct items as [|job items]; reflexivity.
Qed.

Lemma search_jobs_reads_first_five_witness :
  let good := posting_json (lit "Analyst") (lit "Acme") (lit "Pune") (lit "IN")
                           (lit "https://a.example/1") in
  fst (search_jobs
         (fixed_env (fun _ => Ok [])
            (Ok (JObj [(lit "data", JArr [good; good; good; good; good; JNull])]))
            [])
         (lit "find jobs") (start initial_state))
  = fst (search_jobs
           (fixed_env (fun _ => Ok [])
              (Ok (JObj [(lit "data", JArr [good; good; good; good; good])]))
              [])
           (lit "find jobs") (start initial_state)).
Proof.
  intros good.
  rewrite (@search_jobs_reads_first_five
             (fixed_env (fun _ => Ok [])
                (Ok (JObj [(lit "data", JArr [good; good; good; good; good; JNull])])) [])
             (lit "find jobs") (start initial_state)
             [(lit "data", JArr [good; good; good; good; good; JNull])]
             [good; good; good; good; good; JNull] eq_refl eq_refl).
  reflexivity.
Defined.

Lemma rmap_first_failure {A B} (f : A -> result B) (before : list A) (ys : list B)
      (x : A) (after : list A) (e : Exception) :
  rmap f before = Ok ys -> f x = Raise e ->
  rmap f (before ++ x :: after) = Raise e.
Proof.
  revert ys. induction before as [|a before IH]; intros ys Hb Hx; simpl.
  - now rewrite Hx.
  - simpl in Hb. destruct (f a) as [b|e']; simpl in *; [|discriminate].
    destruct (rmap f before) as [bs|e'] eqn:E; simpl in *; [|discriminate].
    now rewrite (IH bs eq_refl Hx).
Qed.

Lemma firstn_app_within {A} (n : nat) (before : list A) (x : A) (after : list A) :
  List.length before < n ->
  exists after', firstn n (before ++ x :: after) = before ++ x :: after'.
Proof.
  revert n. induction before as [|a before IH]; intros n Hn.
  - destruct n; [inversion Hn|]. cbn [app]. rewrite firstn_cons. eauto.
  - destruct n; [inversion Hn|]. cbn [List.length] in Hn.
    destruct (IH n) as [after' E]; [lia|].
    cbn [app]. rewrite firstn_cons, E. eauto.
Qed.

(** X8. One posting among the first five that cannot be formatted
    spoils the whole reply: the postings before it are dropped and the
    reply is the failure message with the text of that posting's
    exception; for a posting without [job_title] that text is the
    key in quotes. *)
Theorem search_jobs_bad_posting_fails_all (env : Env) (query : pystr) (w : World)
        (fields : list (pystr * json)) (postings : list JobPosting)
        (before : list json) (job : json) (after : list json) (e : Exception) :
  requests_get_json env (search_url env) query (lit "India") = Ok (JObj fields) ->
  dict_get fields (lit "data") = Some (JArr (before ++ job :: after)) ->
  Forall2 is_posting postings before ->
  List.length before < 5 ->
  format_job env job = Raise e ->
  fst (search_jobs env query w) = Ok (FAILED_JOBS e)
  /\ (forall job_fields,
        job = JObj job_fields -> dict_get job_fields (lit "job_title") = None ->
        e = KeyError (lit "job_title")).
Proof.
  intros Hget Hdata Hall Hlen Hjob. split.
  - rewrite search_jobs_run, Hget, rbind_ok. cbn [fst].
    rewrite (jobs_reply_list env fields Hdata).
    destruct (firstn_app_within before job after Hlen) as [after' E].
    rewrite E.
    rewrite (rmap_first_failure (format_job env) before job after'
               (@rmap_format_job env _ _ Hall) Hjob).
    now destruct before.
  - intros job_fields -> Hmissing. unfold format_job, subscript in Hjob.
    rewrite Hmissing in Hjob. cbn in Hjob. congruence.
Qed.

Lemma search_jobs_bad_posting_fails_all_witness :
  fst (search_jobs
         (fixed_env (fun _ => Ok [])
            (Ok (JObj [(lit "data",
                        JArr [posting_json (lit "Analyst") (lit "Acme") (lit "Pune")
                                           (lit "IN") (lit "https://a.example/1");
                              JObj [(lit "employer_name", JStr (lit "Initech"))]])]))
            [])
         (lit "find jobs") (start initial_state))
  = Ok (warning_sign ++ lit " Failed to fetch jobs: 'job_title'").
Proof.
  refine (proj1 (@search_jobs_bad_posting_fails_all
                   (fixed_env (fun _ => Ok [])
                      (Ok (JObj [(lit "data",
                                  JArr [posting_json (lit "Analyst") (lit "Acme") (lit "Pune")
                                                     (lit "IN") (lit "https://a.example/1");
                                        JObj [(lit "employer_name", JStr (lit "Initech"))]])]))
                      [])
                   (lit "find jobs") (start initial_state)
                   [(lit "data",
                     JArr [posting_json (lit "Analyst") (lit "Acme") (lit "Pune")
                                        (lit "IN") (lit "https://a.example/1");
                           JObj [(lit "employer_name", JStr (lit "Initech"))]])]
                   [posting_of (lit "Analyst") (lit "Acme") (lit "Pune") (lit "IN")
                               (lit "https://a.example/1")]
                   [posting_json (lit "Analyst") (lit "Acme") (lit "Pune") (lit "IN")
                                 (lit "https://a.example/1")]
                   (JObj [(lit "employer_name", JStr (lit "Initech"))]) []
                   (KeyError (lit "job_title")) eq_refl eq_refl _ _ eq_refl)).
  - constructor; [|constructor]. repeat split.
  - cbn [List.length]. lia.
Defined.

Lemma format_job_not_object (env : Env) (job : json) :
  (forall job_fields, job <> JObj job_fields) ->
  format_job env job = Raise (unsupported env job).
Proof.
  intros H. destruct job; try reflexivity. now contradiction (H fields).
Qed.

(** X9. A [data] field that is not a list: a value that counts as
    false ([null], [false], zero, the empty string or object) gives
    the "No jobs found" reply like an empty list; any other value
    gives the failure message, never a list of postings. *)
Theorem search_jobs_data_not_a_list (env : Env) (query : pystr) (w : World)
        (fields : list (pystr * json)) (data : json) :
  requests_get_json env (search_url env) query (lit "India") = Ok (JObj fields) ->
  dict_get fields (lit "data") = Some data ->
  (forall items, data <> JArr items) ->
  (json_truthy data = false -> fst (search_jobs env query w) = Ok NO_JOBS)
  /\ (json_truthy data = true ->
      exists e, fst (search_jobs env query w) = Ok (FAILED_JOBS e)).
Proof.
  intros Hget Hdata Hnot. rewrite search_jobs_run, Hget, rbind_ok. cbn [fst].
  unfold jobs_reply, get_data. rewrite Hdata, rbind_ok. split.
  - intros Hf. now rewrite Hf.
  - intros Ht. rewrite Ht. cbn [negb].
    destruct data as [|b|nz r|s|items|job_fields].
    + discriminate.
    + cbn [first_five rbind]. eauto.
    + cbn [first_five rbind]. eauto.
    + destruct s as [|c s]; [discriminate|].
      cbn [first_five rbind]. rewrite firstn_cons. cbn [List.map rmap].
      rewrite (@format_job_not_object env (JStr [c])) by discriminate.
      cbn [rbind]. eauto.
    + now contradiction (Hnot items).
    + cbn [first_five rbind]. eauto.
Qed.

Lemma search_jobs_data_not_a_list_witness :
  fst (search_jobs (fixed_env (fun _ => Ok []) (Ok (JObj [(lit "data", JNull)])) [])
                   (lit "find jobs") (start initial_state))
  = Ok NO_JOBS
  /\ fst (search_jobs
            (fixed_env (fun _ => Ok [])
               (Ok (JObj [(lit "data", JStr (lit "quota exceeded"))])) [])
            (lit "find jobs") (start initial_state))
     = Ok (FAILED_JOBS (TypeError (lit "unsupported operand"))).
Proof.
  split.
  - apply (@search_jobs_data_not_a_list
             (fixed_env (fun _ => Ok []) (Ok (JObj [(lit "data", JNull)])) [])
             (lit "find jobs") (start initial_state) [(lit "data", JNull)] JNull
             eq_refl eq_refl); [discriminate | reflexivity].
  - destruct (@search_jobs_data_not_a_list
                (fixed_env (fun _ => Ok [])
                   (Ok (JObj [(lit "data", JStr (lit "quota exceeded"))])) [])
                (lit "find jobs") (start initial_state)
                [(lit "data", JStr (lit "quota exceeded"))] (JStr (lit "quota exceeded"))
                eq_refl eq_refl) as [_ H]; [discriminate|].
    destruct (H eq_refl) as [e He]. reflexivity.
Defined.

(** ** Chat submission: routes and inputs *)

(** X10. A submission with a text makes exactly one service call: a
    job search sends one request, with the utterance as typed as the
    query and India as the location, and does not call the language
    model; a general query calls the language model once and sends no
    request.  This holds whether or not the reply is then recorded. *)
Theorem chat_submission_one_service_call (env : Env) (s : SessionState) (ut : pystr)
        (mic : option pystr) (user_input : pystr) :
  resolve_input ut mic = Some user_input ->
  truthy user_input = true ->
  let tr := trace (snd (handle_chat_submission env ut mic true (start s))) in
  (classify (unicode_lower env) user_input = JOB_SEARCH ->
   http_calls tr = [(search_url env, user_input, lit "India")] /\ lm_calls tr = [])
  /\ (classify (unicode_lower env) user_input = GENERAL_QUERY ->
      http_calls tr = []
      /\ lm_calls tr = [full_prompt env (messages s ++ [user_turn user_input]) user_input]).
Proof.
  intros Hres Ht. cbv zeta.
  rewrite (handle_chat_submission_run env ut mic (start s) Hres Ht). cbv zeta.
  unfold classify, service_call.
  destruct (is_job_search (unicode_lower env) user_input);
    destruct (existsb (pystr_eqb (lit "Avatar")) (chat_message_keywords env));
    split; intros H; try discriminate; split; reflexivity.
Qed.

Lemma chat_submission_one_service_call_witness :
  let env := fixed_env (fun _ => Ok (lit "ok")) (Ok JNull) streamlit_chat_message_keywords in
  http_calls (trace (snd (handle_chat_submission env (lit "Find Jobs in Pune") None true
                                                 (start initial_state))))
  = [(lit "https://jsearch.p.rapidapi.com/search", lit "Find Jobs in Pune", lit "India")]
  /\ lm_calls (trace (snd (handle_chat_submission env (lit "Find Jobs in Pune") None true
                                                  (start initial_state))))
     = [].
Proof.
  intros env.
  apply (@chat_submission_one_service_call env initial_state (lit "Find Jobs in Pune") None
           (lit "Find Jobs in Pune") eq_refl eq_refl).
  reflexivity.
Defined.

(** X11. A run with no upload and nothing submitted (the form not
    sent, or sent with an empty text box and no transcript) only shows
    the stored turns again, one bubble per turn in order: the session
    is as before, no service is called and nothing raises. *)
Theorem idle_run_changes_nothing (env : Env) (sub : Submission) (s : SessionState) :
  uploaded_file sub = None ->
  submitted sub = false
  \/ (user_text sub = [] /\ (mic_text sub = None \/ mic_text sub = Some [])) ->
  run_script env sub (start s)
  = (Ok tt,
     {| session := s;
        trace := List.map (fun msg => ChatMarkdown (role msg) (content msg))
                          (messages s) |}).
Proof.
  intros Hup Hidle. rewrite run_script_run, Hup.
  cbn [resume_upload_handling start session trace app].
  unfold bind at 1. cbn [ret].
  assert (handle_chat_submission env (user_text sub) (mic_text sub) (submitted sub)
          = ret tt) as ->; [|reflexivity].
  unfold handle_chat_submission.
  destruct Hidle as [-> | [-> [-> | ->]]]; cbn [resolve_input truthy andb].
  - now destruct (resolve_input _ _).
  - reflexivity.
  - now rewrite andb_false_r.
Qed.

Lemma idle_run_changes_nothing_witness :
  let s := {| messages := [user_turn (lit "hi"); assistant_turn (lit "hello")];
              resume_text := lit "Jane" ++ nl |} in
  run_script (fixed_env (fun _ => Ok []) (Ok JNull) [])
             {| user_text := lit "typed but not sent"; mic_text := None;
                uploaded_file := None; submitted := false |}
             (start s)
  = (Ok tt, {| session := s;
               trace := [ChatMarkdown (lit "user") (lit "hi");
                         ChatMarkdown (lit "assistant") (lit "hello")] |}).
Proof.
  intros s.
  apply (@idle_run_changes_nothing (fixed_env (fun _ => Ok []) (Ok JNull) [])
           {| user_text := lit "typed but not sent"; mic_text := None;
              uploaded_file := None; submitted := false |} s eq_refl).
  now left.
Defined.

(** X12. The typed text wins over the transcript: with a non-empty
    text box the microphone result is ignored, and with an empty text
    box a transcript is handled exactly as if it had been typed. *)
Theorem typed_text_takes_precedence (env : Env) (ut : pystr) (mic : option pystr)
        (sub : bool) (w : World) :
  (ut <> [] ->
   handle_chat_submission env ut mic sub w = handle_chat_submission env ut None sub w)
  /\ (forall transcript,
        handle_chat_submission env [] (Some transcript) sub w
        = handle_chat_submission env transcript None sub w).
Proof.
  split.
  - intros Hne. unfold handle_chat_submission, resolve_input.
    destruct ut; [now contradiction Hne | reflexivity].
  - intros transcript. unfold handle_chat_submission, resolve_input.
    cbn [truthy]. destruct transcript; [|reflexivity].
    cbn [truthy]. now rewrite andb_false_r.
Qed.

Lemma typed_text_takes_precedence_witness :
  let env := fixed_env (fun _ => Ok (lit "ok")) (Ok JNull) [lit "Avatar"] in
  handle_chat_submission env (lit "typed") (Some (lit "spoken")) true (start initial_state)
  = handle_chat_submission env (lit "typed") None true (start initial_state).
Proof.
  intros env.
  apply (proj1 (typed_text_takes_precedence env (lit "typed") (Some (lit "spoken")) true
                  (start initial_state))).
  discriminate.
Defined.

(** ** The history only grows *)

Lemma appended_app (a b : list event) : appended (a ++ b) = appended a ++ appended b.
Proof.
  induction a as [|ev a IH]; [reflexivity|].
  destruct ev; cbn [app appended]; rewrite IH; reflexivity.
Qed.

Lemma lm_calls_app (a b : list event) : lm_calls (a ++ b) = lm_calls a ++ lm_calls b.
Proof.
  induction a as [|ev a IH]; [reflexivity|].
  destruct ev; cbn [app lm_calls]; rewrite IH; reflexivity.
Qed.

Section HistoryTracked.
Context {A B : Type}.

Lemma tracked_ret (a : A) : history_tracked (ret a).
Proof. intros w. exists []. cbn. now rewrite !app_nil_r. Qed.

Lemma tracked_lift (r : result A) : history_tracked (lift r).
Proof. intros w. exists []. cbn. now rewrite !app_nil_r. Qed.

Lemma tracked_bind (m : M A) (k : A -> M B) :
  history_tracked m -> (forall a, history_tracked (k a)) -> history_tracked (bind m k).
Proof.
  intros Hm Hk w. unfold bind. destruct (Hm w) as [tr [Ht Hs]].
  destruct (m w) as [[a|e] w1]; cbn [fst snd] in *.
  - destruct (Hk a w1) as [tr' [Ht' Hs']]. exists (tr ++ tr').
    rewrite Ht', Hs', Ht, Hs, appended_app, <- !app_assoc. now split.
  - exists tr. now split.
Qed.

Lemma tracked_try_except (body : M A) (handler : Exception -> M A) :
  history_tracked body -> (forall e, history_tracked (handler e)) ->
  history_tracked (try_except body handler).
Proof.
  intros Hm Hk w. unfold try_except. destruct (Hm w) as [tr [Ht Hs]].
  destruct (body w) as [[a|e] w1]; cbn [fst snd] in *.
  - exists tr. now split.
  - destruct (Hk e w1) as [tr' [Ht' Hs']]. exists (tr ++ tr').
    rewrite Ht', Hs', Ht, Hs, appended_app, <- !app_assoc. now split.
Qed.
End HistoryTracked.

Lemma tracked_emit (ev : event) : appended [ev] = [] -> history_tracked (emit ev).
Proof.
  intros H w. exists [ev]. unfold emit. cbn [snd trace session].
  rewrite H, app_nil_r. now split.
Qed.

Lemma tracked_messages_append (turn : Turn) : history_tracked (messages_append turn).
Proof. intros w. exists [MessagesAppend turn]. cbn. now split. Qed.

Lemma tracked_set_resume_text (text : pystr) : history_tracked (set_resume_text text).
Proof. intros w. exists []. cbn. now rewrite !app_nil_r. Qed.

Lemma tracked_get_messages : history_tracked get_messages.
Proof. intros w. exists []. cbn. now rewrite !app_nil_r. Qed.

Lemma tracked_get_resume_text : history_tracked get_resume_text.
Proof. intros w. exists []. cbn. now rewrite !app_nil_r. Qed.

Lemma tracked_for_each {A} (l : list A) (body : A -> M unit) :
  (forall x, history_tracked (body x)) -> history_tracked (for_each l body).
Proof.
  intros Hb. induction l as [|x l IH]; cbn [for_each].
  - apply tracked_ret.
  - apply tracked_bind; [apply Hb | intros _; exact IH].
Qed.

Lemma tracked_chat_message_markdown (env : Env) (name : pystr)
      (kwargs : list (pystr * pystr)) (text : pystr) :
  history_tracked (chat_message_markdown env name kwargs text).
Proof.
  apply tracked_bind; [apply tracked_lift | intros _; now apply tracked_emit].
Qed.

Lemma tracked_model_generate (env : Env) (prompt : pystr) :
  history_tracked (model_generate env prompt).
Proof.
  apply tracked_bind; [now apply tracked_emit | intros _; apply tracked_lift].
Qed.

Lemma tracked_search_jobs (env : Env) (query : pystr) :
  history_tracked (search_jobs env query).
Proof.
  apply tracked_try_except; [|intros e; apply tracked_ret].
  apply tracked_bind; [|intros body; apply tracked_lift].
  apply tracked_bind; [now apply tracked_emit | intros _; apply tracked_lift].
Qed.

Lemma tracked_resume_upload_handling (env : Env) (up : option UploadedFile) :
  history_tracked (resume_upload_handling env up).
Proof.
  destruct up as [file|]; [|apply tracked_ret].
  apply tracked_bind; [|intros _].
  - unfold extract_resume.
    apply tracked_bind; [now apply tracked_emit | intros _].
    apply tracked_bind; [now apply tracked_emit | intros _].
    destruct (pystr_eqb (file_type file) MIME_PDF);
      [|destruct (pystr_eqb (file_type file) MIME_DOCX)].
    + apply tracked_bind; [apply tracked_lift | intros text; apply tracked_set_resume_text].
    + apply tracked_bind; [apply tracked_lift | intros text; apply tracked_set_resume_text].
    + now apply tracked_emit.
  - unfold analyse_resume.
    apply tracked_bind; [apply tracked_get_resume_text | intros text].
    apply tracked_bind; [now apply tracked_emit | intros _].
    apply tracked_bind; [now apply tracked_emit | intros _].
    destruct (usable text); [|now apply tracked_emit].
    apply tracked_bind; [now apply tracked_emit | intros _].
    apply tracked_try_except; [|intros e; now apply tracked_emit].
    apply tracked_bind; [apply tracked_model_generate | intros res].
    apply tracked_bind; [apply tracked_chat_message_markdown | intros _].
    apply tracked_messages_append.
Qed.

Lemma tracked_handle_chat_submission (env : Env) (ut : pystr) (mic : option pystr)
      (sub : bool) :
  history_tracked (handle_chat_submission env ut mic sub).
Proof.
  unfold handle_chat_submission.
  destruct (resolve_input ut mic) as [user_input|]; [|apply tracked_ret].
  destruct (sub && truthy user_input); [|apply tracked_ret].
  apply tracked_bind; [apply tracked_chat_message_markdown | intros _].
  apply tracked_bind; [apply tracked_messages_append | intros _].
  apply tracked_bind; [apply tracked_get_messages | intros msgs].
  apply tracked_bind.
  - destruct (is_job_search (unicode_lower env) user_input).
    + apply tracked_search_jobs.
    + apply tracked_try_except; [apply tracked_model_generate | intros e; apply tracked_ret].
  - intros reply.
    apply tracked_bind; [apply tracked_chat_message_markdown | intros _].
    apply tracked_messages_append.
Qed.

(** X14. The history is append-only over a run of the script: whatever
    the inputs and the answers of the services, and also when the run
    ends with an exception, the stored turns afterwards are the turns
    stored before followed by the turns the run appended, in the
    order of the appends; no earlier turn is changed or removed. *)
Theorem history_only_grows (env : Env) (sub : Submission) (w : World) :
  exists tr,
    trace (snd (run_script env sub w)) = trace w ++ tr
    /\ messages (session (snd (run_script env sub w)))
       = messages (session w) ++ appended tr.
Proof.
  assert (history_tracked (run_script env sub)) as H; [|apply H].
  unfold run_script.
  apply tracked_bind; [|intros _].
  - unfold show_chat_history.
    apply tracked_bind; [apply tracked_get_messages | intros msgs].
    apply tracked_for_each. intros msg. apply tracked_chat_message_markdown.
  - apply tracked_bind; [apply tracked_resume_upload_handling | intros _].
    apply tracked_handle_chat_submission.
Qed.

(** ** An upload of another declared type *)

(** X15. For an upload declared as neither PDF nor DOCX no extractor
    runs and the stored text stays as it was; "Unsupported file type."
    is shown and the handling goes on with the stored text.  In a
    session with no usable stored text (as at the start) that ends
    with "Failed to extract usable text from resume.", no call of the
    language model and no new turn; with a usable stored text, that
    text is sent for analysis and the answer appended. *)
Theorem unsupported_type_uses_stored_text (env : Env) (s : SessionState)
        (file : UploadedFile) :
  extracted file = None ->
  let run := resume_upload_handling env (Some file) (start s) in
  resume_text (session (snd run)) = resume_text s
  /\ (usable (resume_text s) = false ->
      errors_shown (trace (snd run)) = [UNSUPPORTED_TYPE; FAILED_EXTRACT]
      /\ lm_calls (trace (snd run)) = []
      /\ messages (session (snd run)) = messages s)
  /\ (forall res,
        usable (resume_text s) = true ->
        generate_content env (analysis_prompt (resume_text s)) = Ok res ->
        errors_shown (trace (snd run)) = [UNSUPPORTED_TYPE]
        /\ lm_calls (trace (snd run)) = [analysis_prompt (resume_text s)]
        /\ messages (session (snd run)) = messages s ++ [assistant_turn res]).
Proof.
  intros H. cbv zeta. unfold resume_upload_handling, bind.
  rewrite (extract_resume_unsupported file (start s) H).
  split; [|split].
  - rewrite analyse_resume_keeps_text. reflexivity.
  - intros Hu. rewrite analyse_resume_unusable by exact Hu.
    cbn. repeat split.
  - intros res Hu Hg. rewrite (@analyse_resume_answered env _ res) by assumption.
    cbn. repeat split.
Qed.

Lemma unsupported_type_uses_stored_text_witness :
  let run := resume_upload_handling
               (fixed_env (fun _ => Ok (lit "ok")) (Ok JNull) [])
               (Some (declared_as (lit "application/octet-stream")
                                  (docx_upload (lit "cv.docx") [lit "Jane Doe"])))
               (start initial_state) in
  errors_shown (trace (snd run)) = [UNSUPPORTED_TYPE; FAILED_EXTRACT]
  /\ lm_calls (trace (snd run)) = []
  /\ messages (session (snd run)) = [].
Proof.
  intros run.
  apply (proj1 (proj2 (@unsupported_type_uses_stored_text
                         (fixed_env (fun _ => Ok (lit "ok")) (Ok JNull) [])
                         initial_state
                         (declared_as (lit "application/octet-stream")
                                      (docx_upload (lit "cv.docx") [lit "Jane Doe"]))
                         eq_refl))).
  reflexivity.
Defined.

(** ** What the prompt of a general query holds *)

Lemma substring_trans (a b c : pystr) : substring a b -> substring b c -> substring a c.
Proof.
  intros [p1 [q1 ->]] [p2 [q2 ->]]. exists (p2 ++ p1), (q1 ++ q2).
  now rewrite <- !app_assoc.
Qed.

Lemma substring_app_l (a pre : pystr) (s : pystr) : substring a s -> substring a (pre ++ s).
Proof. intros [p [q ->]]. exists (pre ++ p), q. now rewrite <- app_assoc. Qed.

Lemma substring_app_r (a s post : pystr) : substring a s -> substring a (s ++ post).
Proof. intros [p [q ->]]. exists p, (q ++ post). now rewrite <- !app_assoc. Qed.

Lemma substring_refl (a : pystr) : substring a a.
Proof. exists [], []. now rewrite app_nil_r. Qed.

Lemma substring_join (sep : pystr) (parts : list pystr) (p : pystr) :
  In p parts -> substring p (join sep parts).
Proof.
  induction parts as [|q parts IH]; intros Hin; [contradiction|].
  destruct parts as [|q' parts].
  - destruct Hin as [-> | []]. apply substring_refl.
  - change (join sep (q :: q' :: parts)) with (q ++ sep ++ join sep (q' :: parts)).
    destruct Hin as [-> | Hin].
    + apply substring_app_r, substring_refl.
    + apply substring_app_l, substring_app_l, IH, Hin.
Qed.

(** X16. The prompt of a general query carries the whole stored
    conversation: it starts with the domain preamble, and the text of
    every turn stored before the submission, replies and error
    replies included, occurs in it. *)
Theorem general_query_prompt_holds_history (env : Env) (s : SessionState) (ut : pystr)
        (mic : option pystr) (user_input : pystr) :
  resolve_input ut mic = Some user_input ->
  truthy user_input = true ->
  classify (unicode_lower env) user_input = GENERAL_QUERY ->
  exists prompt,
    lm_calls (trace (snd (handle_chat_submission env ut mic true (start s)))) = [prompt]
    /\ (exists rest, prompt = DOMAIN_PROMPT ++ rest)
    /\ (forall turn, In turn (messages s) -> substring (content turn) prompt).
Proof.
  intros Hres Ht Hc.
  assert (is_job_search (unicode_lower env) user_input = false) as Hj.
  { unfold classify in Hc. now destruct (is_job_search _ _). }
  rewrite (general_query_prompt env s ut mic Hres Ht Hj).
  eexists. split; [reflexivity|]. split.
  - unfold full_prompt. eauto.
  - intros turn Hin. unfold full_prompt.
    apply substring_app_l, substring_app_l, substring_app_l, substring_app_r.
    unfold chat_history.
    apply substring_trans
      with (b := capitalize (unicode_capitalize env) (role turn) ++ lit ": " ++ content turn).
    + apply substring_app_l, substring_app_l, substring_refl.
    + apply substring_join. apply in_map_iff. exists turn. split; [reflexivity|].
      apply in_or_app. now left.
Qed.

Lemma general_query_prompt_holds_history_witness :
  exists prompt,
    lm_calls (trace (snd (handle_chat_submission
                            (fixed_env (fun _ => Ok (lit "ok")) (Ok JNull) [])
                            (lit "and for nursing?") None true
                            (start {| messages := [user_turn (lit "skills for law?");
                                                   assistant_turn (lit "Rhetoric.")];
                                      resume_text := [] |}))))
    = [prompt]
    /\ substring (lit "Rhetoric.") prompt.
Proof.
  destruct (@general_query_prompt_holds_history
              (fixed_env (fun _ => Ok (lit "ok")) (Ok JNull) [])
              {| messages := [user_turn (lit "skills for law?");
                              assistant_turn (lit "Rhetoric.")];
                 resume_text := [] |}
              (lit "and for nursing?") None (lit "and for nursing?")
              eq_refl eq_refl eq_refl) as [prompt [Hp [_ Hall]]].
  exists prompt. split; [exact Hp|].
  apply (Hall (assistant_turn (lit "Rhetoric."))). right. now left.
Defined.

(** ** Upload and text in one submission *)

Lemma lm_calls_shown (msgs : list Turn) :
  lm_calls (List.map (fun msg => ChatMarkdown (role msg) (content msg)) msgs) = [].
Proof. induction msgs; [reflexivity | exact IHmsgs]. Qed.

Lemma appended_shown (msgs : list Turn) :
  appended (List.map (fun msg => ChatMarkdown (role msg) (content msg)) msgs) = [].
Proof. induction msgs; [reflexivity | exact IHmsgs]. Qed.

(** X17. When one submission brings a resume and a question, the
    analysis runs first and its answer is in the history before the
    question is handled: the language model is called twice, first
    with the analysis prompt, then with a prompt built from the
    history that already ends with the analysis and the question. *)
Theorem analysis_precedes_question (env : Env) (s : SessionState) (file : UploadedFile)
        (text res ut : pystr) (mic : option pystr) (user_input : pystr) :
  extracted file = Some (Ok text) ->
  usable text = true ->
  generate_content env (analysis_prompt text) = Ok res ->
  resolve_input ut mic = Some user_input ->
  truthy user_input = true ->
  classify (unicode_lower env) user_input = GENERAL_QUERY ->
  let run := run_script env
               {| user_text := ut; mic_text := mic; uploaded_file := Some file;
                  submitted := true |} (start s) in
  lm_calls (trace (snd run))
  = [analysis_prompt text;
     full_prompt env ((messages s ++ [assistant_turn res]) ++ [user_turn user_input])
                 user_input]
  /\ exists rest, appended (trace (snd run))
                  = assistant_turn res :: user_turn user_input :: rest.
Proof.
  intros Hx Hu Hg Hres Ht Hc. cbv zeta.
  assert (is_job_search (unicode_lower env) user_input = false) as Hj.
  { unfold classify in Hc. now destruct (is_job_search _ _). }
  rewrite run_script_run.
  cbn [uploaded_file user_text mic_text submitted start session trace app].
  rewrite (@upload_then_chat_supported env file text _ _ Hx).
  unfold bind. cbn [session trace messages].
  rewrite (@analyse_resume_answered env _ res) by assumption.
  rewrite (handle_chat_submission_run env ut mic _ Hres Ht). cbv zeta.
  cbn [session trace messages resume_text].
  unfold service_call. rewrite Hj.
  destruct (existsb (pystr_eqb (lit "Avatar")) (chat_message_keywords env));
    cbn [snd session trace];
    rewrite !lm_calls_app, !appended_app, lm_calls_shown, appended_shown;
    cbn; eauto.
Qed.

Lemma analysis_precedes_question_witness :
  lm_calls (trace (snd (run_script
                          (fixed_env (fun _ => Ok (lit "ok")) (Ok JNull) [])
                          {| user_text := lit "what next?"; mic_text := None;
                             uploaded_file := Some (pdf_upload (lit "cv.pdf") [lit "Jane"]);
                             submitted := true |}
                          (start initial_state))))
  = [analysis_prompt (lit "Jane" ++ nl);
     full_prompt (fixed_env (fun _ => Ok (lit "ok")) (Ok JNull) [])
                 [assistant_turn (lit "ok"); user_turn (lit "what next?")]
                 (lit "what next?")].
Proof.
  apply (proj1 (@analysis_precedes_question
                  (fixed_env (fun _ => Ok (lit "ok")) (Ok JNull) []) initial_state
                  (pdf_upload (lit "cv.pdf") [lit "Jane"]) (lit "Jane" ++ nl) (lit "ok")
                  (lit "what next?") None (lit "what next?")
                  eq_refl eq_refl eq_refl eq_refl eq_refl eq_refl)).
Defined.
